(** * rag_api: the FastAPI service of Hybrid-rag-ms-marco

    A shallow embedding of [src/rag_api.py] and the properties of its two
    endpoints, [health_check] (GET /health) and [query_endpoint]
    (POST /query).

    - Python [float] is IEEE-754 binary64: it is modelled by [spec_float]
      with [prec = 53] and [emax = 1024], so every score and latency below
      is computed bit for bit as CPython computes it.
    - Python [int] is unbounded: it is modelled by [Z].
    - The module-level dict [stats] is the record [Stats] inside the
      [World] that every handler receives and returns; an exception leaves
      the mutations made before it in place, as in Python.
    - [time.time()] and [datetime.now().isoformat()] read a [Clock]; the
      [World] counts the reads made so far. *)

From Stdlib Require Import ZArith List String Ascii Bool Lia Sorted.
From Stdlib Require Import Decimal DecimalString.
From Stdlib Require Import DecimalPos DecimalZ.
From Stdlib Require Import SpecFloat PrimFloat FloatOps.
Import ListNotations.

Local Open Scope Z_scope.

(** ** binary64 arithmetic *)

Definition float : Type := spec_float.

Module Float64.

Definition prec : Z := 53.
Definition emax : Z := 1024.

Definition add : float -> float -> float := SFadd prec emax.
Definition sub : float -> float -> float := SFsub prec emax.
Definition mul : float -> float -> float := SFmul prec emax.
Definition div : float -> float -> float := SFdiv prec emax.
Definition leb : float -> float -> bool := SFleb.
Definition ltb : float -> float -> bool := SFltb.

(** The correctly rounded value of an integer (round to nearest, ties to
    even); integers past the largest double round to infinity. *)
Definition of_Z (n : Z) : float := binary_normalize prec emax n 0 false.

Definition is_zero (x : float) : bool :=
  match x with S754_zero _ => true | _ => false end.

Definition is_finite (x : float) : bool :=
  match x with S754_zero _ | S754_finite _ _ _ => true | _ => false end.

Definition is_infinity (x : float) : bool :=
  match x with S754_infinity _ => true | _ => false end.

(** A double: its mantissa and exponent are those of the format. *)
Definition valid (x : float) : bool := valid_binary prec emax x.

(** Zero of either sign, a positive finite number or plus infinity. *)
Definition nonneg (x : float) : bool :=
  match x with
  | S754_zero _ => true
  | S754_finite s _ _ => negb s
  | S754_infinity s => negb s
  | S754_nan => false
  end.

(** The literals of the source. [0.9] and [0.1] are not doubles: the
    parser of CPython takes the nearest one. *)
Definition f0 : float := S754_zero false.
Definition f0_9 : float := S754_finite false 8106479329266893 (-53).
Definition f0_1 : float := S754_finite false 7205759403792794 (-56).
Definition f1000 : float := S754_finite false 8796093022208000 (-43).

End Float64.

(** ** Strings *)

(** [str(i)] of an [int], as an f-string interpolates it. *)
Definition str_int (i : Z) : string := NilZero.string_of_int (Z.to_int i).

(** [len(s)] of a [str]: the number of its characters. *)
Definition len (s : string) : Z := Z.of_nat (String.length s).

(** ** Exceptions *)

Inductive exn : Type :=
| HTTPException (status_code : Z) (detail : string)
| OverflowError (msg : string)
| ZeroDivisionError (msg : string)
| Exception (name msg : string).   (* any other subclass of [Exception] *)

(** [str(e)]. Starlette prints an [HTTPException] as its status code, a
    colon and its detail. *)
Definition str_exn (e : exn) : string :=
  match e with
  | HTTPException status_code detail => (str_int status_code ++ ": " ++ detail)%string
  | OverflowError msg => msg
  | ZeroDivisionError msg => msg
  | Exception _ msg => msg
  end.

(** The result of evaluating an expression: a value, or a raised exception. *)
Inductive outcome (A : Type) : Type :=
| Returned (a : A)
| Raised (e : exn).

Arguments Returned {A} a.
Arguments Raised {A} e.

Definition obind {A B : Type} (c : outcome A) (k : A -> outcome B) : outcome B :=
  match c with
  | Returned a => k a
  | Raised e => Raised e
  end.

(** [float(n)] for an [int] operand of a float operation: CPython raises
    [OverflowError] where the rounded value is not finite. *)
Definition float_of_int (n : Z) : outcome float :=
  match Float64.of_Z n with
  | S754_infinity _ => Raised (OverflowError "int too large to convert to float")
  | x => Returned x
  end.

(** [x / y] on floats: CPython raises on a zero divisor. *)
Definition float_truediv (x y : float) : outcome float :=
  if Float64.is_zero y then Raised (ZeroDivisionError "float division by zero")
  else Returned (Float64.div x y).

(** ** Data model *)

(** The dict [stats]. *)
Record Stats : Type := mkStats {
  total_queries : Z;
  total_latency_ms : float;
  start_time : float
}.

Record QueryRequest : Type := mkQueryRequest {
  query : string;
  top_k : Z;
  method : string
}.

Record Document : Type := mkDocument {
  doc_id : string;
  text : string;
  score : float;
  rank : Z
}.

Record QueryResponse : Type := mkQueryResponse {
  resp_query : string;
  answer : string;
  documents : list Document;
  resp_method : string;
  latency_ms : float;
  timestamp : string
}.

Record HealthResponse : Type := mkHealthResponse {
  status : string;
  uptime_seconds : float;
  health_total_queries : Z;
  avg_latency_ms : float
}.

(** ** The world a handler runs in *)

(** What the system clock answers to the n-th call of [time.time()] and of
    [datetime.now().isoformat()]. *)
Record Clock : Type := mkClock {
  time_at : nat -> float;
  isoformat_at : nat -> string
}.

Record World : Type := mkWorld {
  stats : Stats;
  time_calls : nat;      (* calls of [time.time()] made so far *)
  now_calls : nat        (* calls of [datetime.now()] made so far *)
}.

(** A Python computation: it may read and write the world, and it returns
    or raises; the world it leaves is kept in both cases. *)
Definition Py (A : Type) : Type := World -> outcome A * World.

Definition ret {A : Type} (a : A) : Py A := fun w => (Returned a, w).

Definition raise {A : Type} (e : exn) : Py A := fun w => (Raised e, w).

Definition bind {A B : Type} (c : Py A) (k : A -> Py B) : Py B :=
  fun w =>
    match c w with
    | (Returned a, w') => k a w'
    | (Raised e, w') => (Raised e, w')
    end.

(** [try: body  except Exception as e: handler(e)] *)
Definition try_except {A : Type} (body : Py A) (handler : exn -> Py A) : Py A :=
  fun w =>
    match body w with
    | (Returned a, w') => (Returned a, w')
    | (Raised e, w') => handler e w'
    end.

Definition eval {A : Type} (c : outcome A) : Py A := fun w => (c, w).

Declare Scope py_scope.
Delimit Scope py_scope with py.
Notation "x <- c ;; k" := (bind c (fun x => k))
  (at level 100, c at next level, right associativity) : py_scope.
Notation "c ;; k" := (bind c (fun _ => k))
  (at level 100, right associativity) : py_scope.
Local Open Scope py_scope.

Definition get_stats : Py Stats := fun w => (Returned (stats w), w).

Definition put_stats (s : Stats) : Py unit :=
  fun w => (Returned tt, mkWorld s (time_calls w) (now_calls w)).

(** ** The endpoints *)

(** [range(n)] *)
Definition range (n : Z) : list Z := map Z.of_nat (seq 0 (Z.to_nat n)).

(** A list comprehension whose element expression may raise. *)
Fixpoint comprehension {A B : Type} (f : A -> outcome B) (l : list A) : outcome (list B) :=
  match l with
  | [] => Returned []
  | a :: l' =>
      obind (f a) (fun b => obind (comprehension f l') (fun bs => Returned (b :: bs)))
  end.

(** [x in l] on strings *)
Definition str_in (x : string) (l : list string) : bool := existsb (String.eqb x) l.

(** The element of the comprehension at lines 113-121:
    [Document(doc_id=f"doc{i}", text=f"Sample document {i}",
              score=0.9 - i*0.1, rank=i+1)]. *)
Definition sample_document (i : Z) : outcome Document :=
  obind (float_of_int i) (fun x =>
    Returned (mkDocument ("doc" ++ str_int i)
                         ("Sample document " ++ str_int i)
                         (Float64.sub Float64.f0_9 (Float64.mul x Float64.f0_1))
                         (i + 1))).

Definition sample_documents (request : QueryRequest) : outcome (list Document) :=
  comprehension sample_document (range (top_k request)).

(** [f"Sample answer for: {request.query}"] *)
Definition sample_answer (request : QueryRequest) : outcome string :=
  Returned ("Sample answer for: " ++ query request)%string.

(** [root] returns a dict of three string entries. *)
Definition root : Py (list (string * string)) :=
  ret [("message", "RAG System API"); ("version", "1.0.0"); ("docs", "/docs")]%string.

(** *** What FastAPI does around a handler *)

(** The JSON body of POST /query; a field the client left out is [None]. *)
Record QueryBody : Type := mkQueryBody {
  body_query : option string;
  body_top_k : option Z;
  body_method : option string
}.

Definition or_default {A : Type} (o : option A) (d : A) : A :=
  match o with Some a => a | None => d end.

(** [QueryRequest] (lines 35-39): [query] is required, of 1 to 500
    characters; [top_k] defaults to 10 and lies in 1..100; [method]
    defaults to "hybrid" and is any string. *)
Definition validate_QueryRequest (body : QueryBody) : option QueryRequest :=
  match body_query body with
  | None => None
  | Some q =>
      let k := or_default (body_top_k body) 10 in
      let m := or_default (body_method body) "hybrid"%string in
      if (1 <=? len q) && (len q <=? 500) && (1 <=? k) && (k <=? 100)
      then Some (mkQueryRequest q k m)
      else None
  end.

Inductive HTTPResponse (A : Type) : Type :=
| OK (body : A)                                (* 200 *)
| Error (status_code : Z) (detail : string).

Arguments OK {A} body.
Arguments Error {A} status_code detail.

(** An [HTTPException] becomes the response it describes; any other
    exception that leaves a handler becomes a 500. *)
Definition respond {A : Type} (r : outcome A) : HTTPResponse A :=
  match r with
  | Returned a => OK a
  | Raised (HTTPException status_code detail) => Error status_code detail
  | Raised _ => Error 500 "Internal Server Error"
  end.

Inductive ApiRequest : Type :=
| GET_root
| GET_health
| POST_query (body : QueryBody).

Section Handlers.

Variable clk : Clock.

(** [time.time()] *)
Definition time_time : Py float :=
  fun w => (Returned (time_at clk (time_calls w)),
            mkWorld (stats w) (S (time_calls w)) (now_calls w)).

(** [datetime.now().isoformat()] *)
Definition datetime_now_isoformat : Py string :=
  fun w => (Returned (isoformat_at clk (now_calls w)),
            mkWorld (stats w) (time_calls w) (S (now_calls w))).

(** The module-level initialisation of [stats] (lines 28-32). *)
Definition init_world : World :=
  mkWorld (mkStats 0 Float64.f0 (time_at clk 0)) 1 0.

(** [health_check] (lines 75-89). The [0] of the conditional expression
    becomes [0.0] in the [float] field of [HealthResponse]. *)
Definition health_check : Py HealthResponse :=
  now <- time_time ;;
  st <- get_stats ;;
  let uptime := Float64.sub now (start_time st) in
  avg_latency <-
    (if 0 <? total_queries st
     then eval (obind (float_of_int (total_queries st))
                      (float_truediv (total_latency_ms st)))
     else ret Float64.f0) ;;
  ret (mkHealthResponse "healthy" uptime (total_queries st) avg_latency).

(** [query_endpoint] (lines 92-142), with the two placeholder steps of its
    try block, the construction of [documents] and of [answer], taken as
    parameters; they are expressions without effect on [stats]. The
    local variable [start_time] is written [start_time'] here, [start_time]
    being the key of [stats]. *)
Section QueryEndpoint.

Variable build_documents : QueryRequest -> outcome (list Document).
Variable build_answer : QueryRequest -> outcome string.

Definition query_endpoint_with (request : QueryRequest) : Py QueryResponse :=
  start_time' <- time_time ;;
  try_except
    ((if negb (str_in (method request) ["sparse"; "dense"; "hybrid"]%string)
      then raise (HTTPException 400 "Invalid method. Use: sparse, dense, or hybrid")
      else ret tt) ;;
     documents <- eval (build_documents request) ;;
     answer <- eval (build_answer request) ;;
     now <- time_time ;;
     let latency := Float64.mul (Float64.sub now start_time') Float64.f1000 in
     st <- get_stats ;;
     put_stats (mkStats (total_queries st + 1) (total_latency_ms st) (start_time st)) ;;
     st <- get_stats ;;
     put_stats (mkStats (total_queries st) (Float64.add (total_latency_ms st) latency)
                        (start_time st)) ;;
     ts <- datetime_now_isoformat ;;
     ret (mkQueryResponse (query request) answer documents (method request) latency ts))
    (fun e => raise (HTTPException 500 ("Internal server error: " ++ str_exn e))).

End QueryEndpoint.

(** [query_endpoint] as the source has it. *)
Definition query_endpoint : QueryRequest -> Py QueryResponse :=
  query_endpoint_with sample_documents sample_answer.

(** *** The routes *)

(** FastAPI validates the body against the [Field] declarations of
    [QueryRequest] (lines 35-39) before it calls the handler, and answers
    422 itself when the body does not fit. *)
Definition post_query (body : QueryBody) : World -> HTTPResponse QueryResponse * World :=
  fun w =>
    match validate_QueryRequest body with
    | None => (Error 422 "Unprocessable Entity", w)
    | Some request =>
        let (r, w') := query_endpoint request w in (respond r, w')
    end.

Definition get_health : World -> HTTPResponse HealthResponse * World :=
  fun w => let (r, w') := health_check w in (respond r, w').

Definition get_root : World -> HTTPResponse (list (string * string)) * World :=
  fun w => let (r, w') := root w in (respond r, w').

(** One request served: the world it leaves. *)
Definition handle (rq : ApiRequest) (w : World) : World :=
  match rq with
  | GET_root => snd (get_root w)
  | GET_health => snd (get_health w)
  | POST_query body => snd (post_query body w)
  end.

(** The process, from its start, serving a sequence of requests. *)
Definition serve (rqs : list ApiRequest) (w : World) : World :=
  fold_left (fun w rq => handle rq w) rqs w.

End Handlers.

(** * Vocabulary of the properties *)

(** The test of line 108. *)
Definition valid_method (m : string) : bool :=
  str_in m ["sparse"; "dense"; "hybrid"]%string.

(** The detail of the 500 that answers a method outside the three. *)
Definition invalid_method_detail : string :=
  "Internal server error: 400: Invalid method. Use: sparse, dense, or hybrid".

(** The latency a request measures between its two clock reads. *)
Definition measured_latency (clk : Clock) (w : World) : float :=
  Float64.mul (Float64.sub (time_at clk (S (time_calls w))) (time_at clk (time_calls w)))
              Float64.f1000.

(** The world a served query leaves. *)
Definition world_after_query (clk : Clock) (w : World) : World :=
  mkWorld (mkStats (total_queries (stats w) + 1)
                   (Float64.add (total_latency_ms (stats w)) (measured_latency clk w))
                   (start_time (stats w)))
          (S (S (time_calls w))) (S (now_calls w)).

(** The world a query refused for its method leaves. *)
Definition world_after_refusal (w : World) : World :=
  mkWorld (stats w) (S (time_calls w)) (now_calls w).

(** The score and the document the comprehension builds at index [i]. *)
Definition sample_score (i : Z) : float :=
  Float64.sub Float64.f0_9 (Float64.mul (Float64.of_Z i) Float64.f0_1).

Definition sample_document_at (i : Z) : Document :=
  mkDocument ("doc" ++ str_int i) ("Sample document " ++ str_int i) (sample_score i) (i + 1).

(** Scores do not increase with the rank. *)
Definition by_score (a b : Document) : Prop := Float64.leb (score b) (score a) = true.

(** The body does not fit the [Field] declarations of [QueryRequest]. *)
Definition field_error (body : QueryBody) : bool :=
  match validate_QueryRequest body with None => true | Some _ => false end.

(** The request fails validation: a field error, or a method outside the
    three. *)
Definition fails_validation (body : QueryBody) : bool :=
  match validate_QueryRequest body with
  | None => true
  | Some request => negb (valid_method (method request))
  end.

(** The error is reported with no call of [time.time()] made and with the
    counters as they were. *)
Definition reported_before_timer (clk : Clock) (body : QueryBody) (w : World) : Prop :=
  exists c d w',
    post_query clk body w = (Error c d, w') /\
    time_calls w' = time_calls w /\
    total_queries (stats w') = total_queries (stats w) /\
    total_latency_ms (stats w') = total_latency_ms (stats w).

(** The ranked identifiers and scores of an answer. *)
Definition ranking (r : HTTPResponse QueryResponse) : option (list (string * float)) :=
  match r with
  | OK resp => Some (map (fun d => (doc_id d, score d)) (documents resp))
  | Error _ _ => None
  end.

(** Serving [rq] in [w] decreases neither counter. *)
Definition counters_non_decreasing (clk : Clock) (rq : ApiRequest) (w : World) : Prop :=
  total_queries (stats w) <= total_queries (stats (handle clk rq w)) /\
  Float64.leb (total_latency_ms (stats w)) (total_latency_ms (stats (handle clk rq w))) = true.

(** Every reading of [time.time()] is a finite double, and no reading is
    below the one before it. *)
Definition steady (clk : Clock) : Prop :=
  forall n,
    Float64.is_finite (time_at clk n) = true /\
    Float64.valid (time_at clk n) = true /\
    Float64.leb (time_at clk n) (time_at clk (S n)) = true.

(** [total_latency_ms] is a double that is not negative. *)
Definition sound_total (w : World) : Prop :=
  Float64.valid (total_latency_ms (stats w)) = true /\
  Float64.nonneg (total_latency_ms (stats w)) = true.

(** ** Requests and clocks used as examples *)

(** One second passes between two reads of the clock. *)
Definition example_clock : Clock :=
  mkClock (fun n => Float64.of_Z (1700000000 + Z.of_nat n))
          (fun _ => "2024-01-01T00:00:00"%string).

Definition later_clock : Clock :=
  mkClock (fun n => Float64.of_Z (1800000000 + 7 * Z.of_nat n))
          (fun _ => "2027-01-15T08:00:00"%string).

(** The clock is set back by five seconds after its second read. *)
Definition stepped_back_clock : Clock :=
  mkClock (fun n => match n with
                    | O => Float64.of_Z 1700000000
                    | S O => Float64.of_Z 1700000010
                    | _ => Float64.of_Z 1700000005
                    end)
          (fun _ => "2024-01-01T00:00:05"%string).

(** One second passes between two of the first eight reads; the clock
    stands still afterwards. *)
Definition eight_ticks_clock : Clock :=
  mkClock (fun n => Float64.of_Z (1700000000 + Z.of_nat (Nat.min n 8)))
          (fun _ => "2024-01-01T00:00:00"%string).

Definition body_hybrid : QueryBody :=
  mkQueryBody (Some "what is rag?"%string) (Some 3) (Some "hybrid"%string).

Definition body_fuzzy : QueryBody :=
  mkQueryBody (Some "what is rag?"%string) (Some 3) (Some "fuzzy"%string).

Definition body_empty_query : QueryBody :=
  mkQueryBody (Some ""%string) (Some 3) (Some "hybrid"%string).

Definition body_defaults : QueryBody :=
  mkQueryBody (Some "what is rag?"%string) None None.

Definition body_explicit_defaults : QueryBody :=
  mkQueryBody (Some "what is rag?"%string) (Some 10) (Some "hybrid"%string).

Definition documents_hybrid_3 : list Document :=
  [ mkDocument "doc0" "Sample document 0" (S754_finite false 8106479329266893 (-53)) 1;
    mkDocument "doc1" "Sample document 1" (S754_finite false 7205759403792794 (-53)) 2;
    mkDocument "doc2" "Sample document 2" (S754_finite false 6305039478318694 (-53)) 3 ].

Definition out_of_memory : exn := Exception "MemoryError" "".

(** A world in which four queries took ten milliseconds in all. *)
Definition world_4_queries : World :=
  mkWorld (mkStats 4 (Float64.of_Z 10) (Float64.of_Z 1700000000)) 9 4.

(** * Vocabulary of the further properties *)


(** The request is a POST /query that is served: its body fits the fields
    and its method is one of the three. *)
Definition served (rq : ApiRequest) : bool :=
  match rq with
  | POST_query body => negb (fails_validation body)
  | _ => false
  end.

(** How many requests of a sequence are served queries. *)
Definition count_served (rqs : list ApiRequest) : Z :=
  Z.of_nat (List.length (filter served rqs)).

(** Scores decrease with the rank, ties excluded. *)
Definition by_score_strict (a b : Document) : Prop :=
  Float64.ltb (score b) (score a) = true.

(** The integer a decimal string denotes: the inverse of [str_int]. *)
Definition int_of_str (s : string) : option Z :=
  option_map Z.of_int (NilZero.int_of_string s).

(** The index an identifier [f"doc{i}"] was made from. *)
Definition index_of_doc_id (s : string) : option Z :=
  match s with
  | String "d" (String "o" (String "c" rest)) => int_of_str rest
  | _ => None
  end.

(** The value of a finite double in units of the smallest subnormal,
    2^-1074: an integer when the double is valid. *)
Definition scaled (x : float) : Z :=
  match x with
  | S754_finite s m e => cond_Zopp s (Zpos m * 2 ^ (e + 1074))
  | _ => 0
  end.

(** The world is one the process started at [init_world clk] can be in as
    far as [start_time] goes: it holds the first reading of the clock. *)
Definition started (clk : Clock) (w : World) : Prop :=
  start_time (stats w) = time_at clk 0.

(** The 200 answer of a served query. *)
Definition served_response (clk : Clock) (request : QueryRequest) (w : World) : QueryResponse :=
  mkQueryResponse (query request) ("Sample answer for: " ++ query request)
                  (map sample_document_at (range (top_k request)))
                  (method request) (measured_latency clk w)
                  (isoformat_at clk (now_calls w)).

(** Requests and bodies the examples use. *)
Definition request_hybrid_3 : QueryRequest := mkQueryRequest "what is rag?" 3 "hybrid".

Definition request_defaults : QueryRequest := mkQueryRequest "what is rag?" 10 "hybrid".

Definition body_dense_3 : QueryBody :=
  mkQueryBody (Some "hybrid search"%string) (Some 3) (Some "dense"%string).

Definition request_dense_3 : QueryRequest := mkQueryRequest "hybrid search" 3 "dense".

(** * Properties *)

(** ** The literals *)

(** The mantissas written out in [Float64] are the doubles the literals
    of the source denote: [(0.9).hex()] is 0x1.ccccccccccccdp-1 and
    [(0.1).hex()] is 0x1.999999999999ap-4. *)
Example f0_9_is_the_double_of_0_9 : Prim2SF 0x1.ccccccccccccdp-1%float = Float64.f0_9.
Proof. reflexivity. Qed.

Example f0_1_is_the_double_of_0_1 : Prim2SF 0x1.999999999999ap-4%float = Float64.f0_1.
Proof. reflexivity. Qed.

Example f1000_is_float_of_1000 : float_of_int 1000 = Returned Float64.f1000.
Proof. reflexivity. Qed.

(** ** binary64: digits, shifts, rounding and order

    What the properties of the counters need of [SFsub], [SFmul] and
    [SFadd]: a difference of ordered readings, its product by 1000 and a
    sum with it are doubles that are not negative, and the sum is not
    below the total it was added to. *)

Module Float64Facts.

Import Float64.

(** ** Digits *)

Lemma fexp_binary64 (e : Z) : fexp prec emax e = Z.max (e - 53) (-1074).
Proof. reflexivity. Qed.

Lemma digits2_pos_bounds (m : positive) :
  2 ^ (Zpos (digits2_pos m) - 1) <= Zpos m < 2 ^ Zpos (digits2_pos m).
Proof.
  induction m as [m IH | m IH |]; simpl digits2_pos.
  - rewrite Pos2Z.inj_succ, (Pos2Z.inj_xI m).
    replace (Z.succ (Zpos (digits2_pos m)) - 1) with (Z.succ (Zpos (digits2_pos m) - 1)) by lia.
    rewrite !Z.pow_succ_r by lia.
    revert IH. generalize (2 ^ (Zpos (digits2_pos m) - 1)) (2 ^ Zpos (digits2_pos m)). lia.
  - rewrite Pos2Z.inj_succ, (Pos2Z.inj_xO m).
    replace (Z.succ (Zpos (digits2_pos m)) - 1) with (Z.succ (Zpos (digits2_pos m) - 1)) by lia.
    rewrite !Z.pow_succ_r by lia.
    revert IH. generalize (2 ^ (Zpos (digits2_pos m) - 1)) (2 ^ Zpos (digits2_pos m)). lia.
  - simpl. lia.
Qed.

Lemma Zdigits2_bounds (m : Z) :
  0 < m -> 1 <= Zdigits2 m /\ 2 ^ (Zdigits2 m - 1) <= m < 2 ^ Zdigits2 m.
Proof.
  destruct m as [| p | p]; try lia. intros _. simpl Zdigits2.
  split; [lia | apply digits2_pos_bounds].
Qed.

Lemma Zdigits2_unique (m d : Z) :
  2 ^ (d - 1) <= m < 2 ^ d -> 0 < m -> Zdigits2 m = d.
Proof.
  intros [Hlo Hhi] Hm.
  destruct (Zdigits2_bounds m Hm) as [H1 [Hlo' Hhi']].
  assert (Hd : 1 <= d).
  { destruct (Z_lt_le_dec d 1) as [Hd |]; [| assumption].
    assert (2 ^ d <= 2 ^ 0) by (destruct (Z_lt_le_dec d 0);
      [rewrite Z.pow_neg_r by lia; simpl; lia | apply Z.pow_le_mono_r; lia]).
    simpl in *. lia. }
  destruct (Z.lt_trichotomy (Zdigits2 m) d) as [Hlt | [Heq | Hgt]]; [| assumption |].
  - assert (2 ^ Zdigits2 m <= 2 ^ (d - 1)) by (apply Z.pow_le_mono_r; lia). lia.
  - assert (2 ^ d <= 2 ^ (Zdigits2 m - 1)) by (apply Z.pow_le_mono_r; lia). lia.
Qed.

Lemma Zdigits2_above (m k : Z) : 0 <= k -> 2 ^ k <= m -> k + 1 <= Zdigits2 m.
Proof.
  intros Hk Hm.
  assert (Hpos : 0 < m) by (pose proof (Z.pow_pos_nonneg 2 k); lia).
  destruct (Zdigits2_bounds m Hpos) as [H1 [_ Hhi]].
  destruct (Z_lt_le_dec (Zdigits2 m) (k + 1)) as [Hlt |]; [| assumption].
  assert (2 ^ Zdigits2 m <= 2 ^ k) by (apply Z.pow_le_mono_r; lia). lia.
Qed.

Lemma Zdigits2_mono (a b : Z) : 0 < a <= b -> Zdigits2 a <= Zdigits2 b.
Proof.
  intros [Ha Hab].
  destruct (Zdigits2_bounds a Ha) as [H1 [Hlo _]].
  pose proof (Zdigits2_above b (Zdigits2 a - 1)). lia.
Qed.

Lemma Zdigits2_shiftl (m k : Z) : 0 < m -> 0 <= k -> Zdigits2 (m * 2 ^ k) = Zdigits2 m + k.
Proof.
  intros Hm Hk. destruct (Zdigits2_bounds m Hm) as [H1 [Hlo Hhi]].
  pose proof (Z.pow_pos_nonneg 2 k ltac:(lia) Hk) as Hp.
  apply Zdigits2_unique; [| nia].
  replace (Zdigits2 m + k - 1) with (Zdigits2 m - 1 + k) by lia.
  rewrite !Z.pow_add_r by lia. nia.
Qed.

Lemma Zdigits2_shiftr (m n : Z) :
  0 < m -> 0 <= n < Zdigits2 m ->
  1 <= m / 2 ^ n /\ Zdigits2 (m / 2 ^ n) = Zdigits2 m - n.
Proof.
  intros Hm Hn. destruct (Zdigits2_bounds m Hm) as [H1 [Hlo Hhi]].
  pose proof (Z.pow_pos_nonneg 2 n ltac:(lia) (proj1 Hn)) as Hp.
  assert (Hlo' : 2 ^ (Zdigits2 m - n - 1) <= m / 2 ^ n).
  { apply Z.div_le_lower_bound; [assumption |].
    rewrite <- Z.pow_add_r by lia.
    replace (n + (Zdigits2 m - n - 1)) with (Zdigits2 m - 1) by lia. assumption. }
  assert (Hhi' : m / 2 ^ n < 2 ^ (Zdigits2 m - n)).
  { apply Z.div_lt_upper_bound; [assumption |].
    rewrite <- Z.pow_add_r by lia.
    replace (n + (Zdigits2 m - n)) with (Zdigits2 m) by lia. assumption. }
  pose proof (Z.pow_pos_nonneg 2 (Zdigits2 m - n - 1) ltac:(lia) ltac:(lia)).
  split; [lia |]. apply Zdigits2_unique; [split; assumption | lia].
Qed.

(** ** Shifts *)

Lemma iter_xO_pow (m d : positive) : Zpos (Pos.iter xO m d) = Zpos m * 2 ^ Zpos d.
Proof.
  induction d as [| d IH] using Pos.peano_ind.
  - simpl. lia.
  - rewrite Pos.iter_succ, Pos2Z.inj_xO, IH, Pos2Z.inj_succ, Z.pow_succ_r by lia. lia.
Qed.

(** [shl_align] keeps the value and lowers the exponent to [e'] when
    [e' < e]. *)
Lemma shl_align_spec (m : positive) (e e' : Z) :
  let (m', e'') := shl_align m e e' in
  e'' = Z.min e e' /\ Zpos m' = Zpos m * 2 ^ (e - e'').
Proof.
  unfold shl_align. destruct (e' - e) as [| d | d] eqn:Hd.
  - split; [lia |]. rewrite Z.sub_diag. simpl. lia.
  - split; [lia |]. rewrite Z.sub_diag. simpl. lia.
  - split; [lia |]. rewrite iter_xO_pow. f_equal. f_equal. lia.
Qed.

Lemma shr_1_m (mrs : shr_record) : 0 <= shr_m mrs -> shr_m (shr_1 mrs) = shr_m mrs / 2.
Proof.
  destruct mrs as [m r s]. simpl. intros Hm. rewrite <- Z.div2_div.
  destruct m as [| [p | p |] | p]; try reflexivity; lia.
Qed.

Lemma pow2_xI (p : positive) : 2 ^ Zpos p~1 = 2 * (2 ^ Zpos p * 2 ^ Zpos p).
Proof.
  rewrite (Pos2Z.inj_xI p). replace (2 * Zpos p + 1) with (1 + (Zpos p + Zpos p)) by lia.
  rewrite !Z.pow_add_r by lia. reflexivity.
Qed.

Lemma pow2_xO (p : positive) : 2 ^ Zpos p~0 = 2 ^ Zpos p * 2 ^ Zpos p.
Proof.
  rewrite (Pos2Z.inj_xO p). replace (2 * Zpos p) with (Zpos p + Zpos p) by lia.
  rewrite !Z.pow_add_r by lia. reflexivity.
Qed.

Lemma iter_shr_1_m (p : positive) (mrs : shr_record) :
  0 <= shr_m mrs -> shr_m (iter_pos shr_1 p mrs) = shr_m mrs / 2 ^ Zpos p.
Proof.
  revert mrs. induction p as [p IH | p IH |]; intros mrs Hm; simpl iter_pos.
  - assert (H1 : 0 <= shr_m (shr_1 mrs)) by (rewrite shr_1_m by assumption; apply Z.div_pos; lia).
    pose proof (Z.pow_pos_nonneg 2 (Zpos p) ltac:(lia) ltac:(lia)) as Hp.
    assert (H2 : 0 <= shr_m (iter_pos shr_1 p (shr_1 mrs)))
      by (rewrite IH by assumption; apply Z.div_pos; lia).
    rewrite IH, IH, shr_1_m by assumption.
    rewrite !Z.div_div by lia. now rewrite pow2_xI.
  - pose proof (Z.pow_pos_nonneg 2 (Zpos p) ltac:(lia) ltac:(lia)) as Hp.
    assert (H2 : 0 <= shr_m (iter_pos shr_1 p mrs))
      by (rewrite IH by assumption; apply Z.div_pos; lia).
    rewrite IH, IH by assumption.
    rewrite !Z.div_div by lia. now rewrite pow2_xO.
  - now apply shr_1_m.
Qed.

Lemma shr_m_record_of_loc (m : Z) (l : location) : shr_m (shr_record_of_loc m l) = m.
Proof. destruct l as [| []]; reflexivity. Qed.

(** The first component of [shr_fexp] is the mantissa divided by the power
    of two that brings the exponent up to the canonical one. *)
Lemma shr_fexp_spec (m e : Z) (l : location) :
  0 <= m ->
  let n := Z.max 0 (fexp prec emax (Zdigits2 m + e) - e) in
  shr_m (fst (shr_fexp prec emax m e l)) = m / 2 ^ n /\
  snd (shr_fexp prec emax m e l) = e + n.
Proof.
  intros Hm n. unfold shr_fexp, shr. subst n.
  destruct (fexp prec emax (Zdigits2 m + e) - e) as [| p | p] eqn:Hn; simpl fst; simpl snd.
  - rewrite shr_m_record_of_loc. simpl. rewrite Z.div_1_r. lia.
  - rewrite iter_shr_1_m by (rewrite shr_m_record_of_loc; assumption).
    rewrite shr_m_record_of_loc. rewrite Z.max_r by lia. lia.
  - rewrite shr_m_record_of_loc. rewrite Z.max_l by lia. simpl. rewrite Z.div_1_r. lia.
Qed.

Lemma round_nearest_even_ge (m : Z) (l : location) : m <= round_nearest_even m l.
Proof. destruct l as [| []]; simpl; try destruct (Z.even m); lia. Qed.

(** ** Rounding *)

(** [binary_round_aux] on a mantissa whose exponent is not above the
    canonical one, and whose value is at least the smallest subnormal:
    the result is a canonical finite number, or an infinity, of the sign
    asked for; its exponent is at least the canonical exponent [E] of the
    input, and at exponent [E] its mantissa is at least the truncated one. *)
Lemma binary_round_aux_shape (s : bool) (mz : positive) (ez : Z) (l : location) :
  ez <= fexp prec emax (Zdigits2 (Zpos mz) + ez) ->
  -1074 < Zdigits2 (Zpos mz) + ez ->
  exists (m2 : positive) (e2 : Z),
    binary_round_aux prec emax s (Zpos mz) ez l
    = (if e2 <=? emax - prec then S754_finite s m2 e2 else S754_infinity s) /\
    canonical_mantissa prec emax m2 e2 = true /\
    fexp prec emax (Zdigits2 (Zpos mz) + ez) <= e2 /\
    (e2 = fexp prec emax (Zdigits2 (Zpos mz) + ez) ->
     Zpos mz / 2 ^ (e2 - ez) <= Zpos m2).
Proof.
  intros HE Hmin. unfold binary_round_aux.
  destruct (shr_fexp_spec (Zpos mz) ez l ltac:(lia)) as [Hm' He'].
  destruct (shr_fexp prec emax (Zpos mz) ez l) as [mrs' e']. simpl fst in Hm'. simpl snd in He'.
  set (D := Zdigits2 (Zpos mz) + ez) in *.
  set (E := fexp prec emax D) in *.
  assert (HED : E = Z.max (D - 53) (-1074)) by apply fexp_binary64.
  rewrite Z.max_r in Hm', He' by lia.
  replace (ez + (E - ez)) with E in He' by lia. subst e'.
  destruct (Zdigits2_shiftr (Zpos mz) (E - ez) ltac:(lia) ltac:(unfold D in *; lia))
    as [Hm'1 Hd'].
  rewrite <- Hm' in Hm'1, Hd'.
  set (m1 := round_nearest_even (shr_m mrs') (loc_of_shr_record mrs')).
  assert (Hm1 : shr_m mrs' <= m1) by apply round_nearest_even_ge.
  destruct (shr_fexp_spec m1 E loc_Exact ltac:(lia)) as [Hm2 He2].
  destruct (shr_fexp prec emax m1 E loc_Exact) as [mrs'' e'']. simpl fst in Hm2. simpl snd in He2.
  assert (Hd1 : Zdigits2 (shr_m mrs') <= Zdigits2 m1) by (apply Zdigits2_mono; lia).
  assert (HE2 : fexp prec emax (Zdigits2 m1 + E) = Z.max (Zdigits2 m1 + E - 53) (-1074))
    by apply fexp_binary64.
  set (E2 := fexp prec emax (Zdigits2 m1 + E)) in *.
  destruct (Zdigits2_bounds m1 ltac:(lia)) as [Hd1' _].
  assert (HEE2 : E <= E2) by (unfold D in *; lia).
  rewrite Z.max_r in Hm2, He2 by lia.
  replace (E + (E2 - E)) with E2 in He2 by lia. subst e''.
  destruct (Zdigits2_shiftr m1 (E2 - E) ltac:(lia) ltac:(lia)) as [Hm2' Hd2].
  rewrite <- Hm2 in Hm2', Hd2.
  destruct (shr_m mrs'') as [| m2 | m2] eqn:Hm2z; try lia.
  exists m2, E2. split; [reflexivity |]. split; [| split].
  - unfold canonical_mantissa. apply Z.eqb_eq.
    change (Zpos (digits2_pos m2)) with (Zdigits2 (Zpos m2)). rewrite Hd2.
    replace (Zdigits2 m1 - (E2 - E) + E2) with (Zdigits2 m1 + E) by lia. reflexivity.
  - assumption.
  - intros Heq. rewrite Hm2, Heq, Z.sub_diag. simpl (2 ^ 0). rewrite Z.div_1_r.
    rewrite <- Hm'. assumption.
Qed.

(** [binary_round] on an exponent not below [emin]. *)
Lemma binary_round_shape (s : bool) (m : positive) (e : Z) :
  -1074 <= e ->
  exists (m2 : positive) (e2 : Z),
    binary_round prec emax s m e
    = (if e2 <=? emax - prec then S754_finite s m2 e2 else S754_infinity s) /\
    canonical_mantissa prec emax m2 e2 = true /\
    forall (mx : positive) (ex : Z),
      canonical_mantissa prec emax mx ex = true ->
      Zpos mx * 2 ^ (ex + 1074) <= Zpos m * 2 ^ (e + 1074) ->
      ex < e2 \/ (ex = e2 /\ (mx <= m2)%positive).
Proof.
  intros He. unfold binary_round.
  pose proof (shl_align_spec m e (fexp prec emax (Zpos (digits2_pos m) + e))) as Hs.
  destruct (shl_align m e (fexp prec emax (Zpos (digits2_pos m) + e))) as [mz ez].
  destruct Hs as [Hez Hmz].
  change (Zpos (digits2_pos m)) with (Zdigits2 (Zpos m)) in *.
  destruct (Zdigits2_bounds (Zpos m) ltac:(lia)) as [Hd [Hlo Hhi]].
  assert (HE : fexp prec emax (Zdigits2 (Zpos m) + e) = Z.max (Zdigits2 (Zpos m) + e - 53) (-1074))
    by apply fexp_binary64.
  assert (HD : Zdigits2 (Zpos mz) + ez = Zdigits2 (Zpos m) + e).
  { rewrite Hmz, Zdigits2_shiftl by lia. lia. }
  destruct (binary_round_aux_shape s mz ez loc_Exact) as (m2 & e2 & Hr & Hc & HEe & Hm2).
  { rewrite HD. lia. }
  { rewrite HD. lia. }
  rewrite HD in HEe, Hm2.
  exists m2, e2. split; [assumption |]. split; [assumption |].
  intros mx ex Hcx Hle.
  unfold canonical_mantissa in Hcx. apply Z.eqb_eq in Hcx.
  change (Zpos (digits2_pos mx)) with (Zdigits2 (Zpos mx)) in Hcx.
  rewrite fexp_binary64 in Hcx.
  destruct (Zdigits2_bounds (Zpos mx) ltac:(lia)) as [Hdx [Hlox Hhix]].
  (* the value of x is below 2^(D), so its exponent is at most E *)
  assert (Hdd : Zdigits2 (Zpos mx) + ex <= Zdigits2 (Zpos m) + e).
  { destruct (Z_lt_le_dec (Zdigits2 (Zpos m) + e) (Zdigits2 (Zpos mx) + ex)) as [Hlt |]; [| lia].
    exfalso.
    assert (H1 : 2 ^ (Zdigits2 (Zpos m) + (e + 1074)) <= 2 ^ (Zdigits2 (Zpos mx) - 1 + (ex + 1074)))
      by (apply Z.pow_le_mono_r; lia).
    assert (0 <= ex + 1074) by lia.
    assert (0 <= Zdigits2 (Z.pos mx) - 1) by lia.
    rewrite (Z.pow_add_r 2 (Zdigits2 (Zpos mx) - 1)) in H1 by lia.
    rewrite !Z.pow_add_r in H1 by lia.
    pose proof (Z.pow_pos_nonneg 2 (e + 1074) ltac:(lia) ltac:(lia)).
    pose proof (Z.pow_pos_nonneg 2 (ex + 1074) ltac:(lia) ltac:(lia)).
    assert (Zpos m * 2 ^ (e + 1074) < 2 ^ Zdigits2 (Zpos m) * 2 ^ (e + 1074))
      by (apply Z.mul_lt_mono_pos_r; lia).
    assert (2 ^ (Zdigits2 (Zpos mx) - 1) * 2 ^ (ex + 1074) <= Zpos mx * 2 ^ (ex + 1074))
      by (apply Z.mul_le_mono_nonneg_r; lia).
    lia. }
  destruct (Z_lt_le_dec ex e2) as [Hlt | Hge]; [left; assumption | right].
  assert (Hex : ex = e2) by lia. split; [assumption |].
  assert (He2 : e2 = fexp prec emax (Zdigits2 (Zpos m) + e)) by lia.
  specialize (Hm2 He2).
  assert (Hgoal : Zpos mx <= Zpos m2); [| lia]. eapply Z.le_trans; [| exact Hm2].
  apply Z.div_le_lower_bound; [apply Z.pow_pos_nonneg; lia |].
  (* both values at the unit 2^ez *)
  assert (Hval : Zpos mz * 2 ^ (ez + 1074) = Zpos m * 2 ^ (e + 1074)).
  { rewrite Hmz, <- Z.mul_assoc, <- Z.pow_add_r by lia. f_equal. f_equal. lia. }
  rewrite <- Hval in Hle. subst ex.
  replace (e2 + 1074) with ((e2 - ez) + (ez + 1074)) in Hle by lia.
  rewrite Z.pow_add_r in Hle by lia.
  pose proof (Z.pow_pos_nonneg 2 (ez + 1074) ltac:(lia) ltac:(lia)).
  nia.
Qed.

(** ** Order *)

Lemma canonical_exponent (m : positive) (e : Z) :
  canonical_mantissa prec emax m e = true ->
  -1074 <= e /\ Zdigits2 (Zpos m) <= 53 /\ (-1074 < e -> Zdigits2 (Zpos m) = 53).
Proof.
  unfold canonical_mantissa. intros H. apply Z.eqb_eq in H.
  change (Zpos (digits2_pos m)) with (Zdigits2 (Zpos m)) in H.
  rewrite fexp_binary64 in H. lia.
Qed.

(** Of two canonical positive numbers the one of smaller exponent is the
    smaller. *)
Lemma canonical_exponent_lt (m m' : positive) (e e' ez : Z) :
  canonical_mantissa prec emax m e = true ->
  canonical_mantissa prec emax m' e' = true ->
  e < e' -> ez <= e ->
  Zpos m * 2 ^ (e - ez) < Zpos m' * 2 ^ (e' - ez).
Proof.
  intros Hc Hc' Hlt Hez.
  destruct (canonical_exponent m e Hc) as [He [Hd _]].
  destruct (canonical_exponent m' e' Hc') as [_ [_ Hd']]. specialize (Hd' ltac:(lia)).
  destruct (Zdigits2_bounds (Zpos m) ltac:(lia)) as [_ [_ Hhi]].
  destruct (Zdigits2_bounds (Zpos m') ltac:(lia)) as [_ [Hlo' _]].
  rewrite Hd' in Hlo'. simpl (53 - 1) in Hlo'.
  assert (H53 : 2 ^ Zdigits2 (Zpos m) <= 2 ^ 53) by (apply Z.pow_le_mono_r; lia).
  replace (e' - ez) with ((e' - e - 1) + 1 + (e - ez)) by lia.
  rewrite !Z.pow_add_r by lia. simpl (2 ^ 1).
  pose proof (Z.pow_pos_nonneg 2 (e - ez) ltac:(lia) ltac:(lia)) as Hp.
  pose proof (Z.pow_pos_nonneg 2 (e' - e - 1) ltac:(lia) ltac:(lia)) as Hq.
  change (2 ^ 53) with (2 ^ 52 * 2) in H53.
  assert (H1 : Zpos m < 2 ^ 52 * 2) by lia.
  assert (H2 : 2 ^ 52 * 2 <= Zpos m' * (2 ^ (e' - e - 1) * 2)) by nia.
  rewrite Z.mul_assoc.
  apply Z.mul_lt_mono_pos_r; [assumption | lia].
Qed.

Lemma leb_refl (x : float) : x <> S754_nan -> leb x x = true.
Proof.
  unfold leb. destruct x as [s | s | | s m e]; intros Hx; try (destruct s; reflexivity); [congruence |].
  unfold SFleb, SFcompare. rewrite Z.compare_refl, Pos.compare_cont_refl.
  destruct s; reflexivity.
Qed.

(** The order of two finite numbers, read on their mantissas at a common
    exponent not above either. *)
Lemma SFleb_aligned (s s' : bool) (m m' : positive) (e e' ez : Z) :
  canonical_mantissa prec emax m e = true ->
  canonical_mantissa prec emax m' e' = true ->
  ez <= e -> ez <= e' ->
  leb (S754_finite s m e) (S754_finite s' m' e') = true ->
  cond_Zopp s (Zpos m * 2 ^ (e - ez)) <= cond_Zopp s' (Zpos m' * 2 ^ (e' - ez)).
Proof.
  intros Hc Hc' Hez Hez' Hle.
  pose proof (Z.pow_pos_nonneg 2 (e - ez) ltac:(lia) ltac:(lia)) as Hp.
  pose proof (Z.pow_pos_nonneg 2 (e' - ez) ltac:(lia) ltac:(lia)) as Hp'.
  unfold leb, SFleb, SFcompare in Hle.
  destruct s, s'; unfold cond_Zopp; try discriminate.
  - (* both negative *)
    destruct (Z.compare_spec e e') as [Heq | Hlt | Hgt]; try discriminate.
    + subst e'. rewrite Pos.compare_cont_spec in Hle. simpl Pos.switch_Eq in Hle.
      destruct (Pos.compare_spec m m') as [-> | Hm | Hm]; simpl in Hle;
        try discriminate; [lia |].
      assert (Zpos m' * 2 ^ (e - ez) <= Zpos m * 2 ^ (e - ez))
        by (apply Z.mul_le_mono_nonneg_r; lia).
      lia.
    + pose proof (canonical_exponent_lt m' m e' e ez Hc' Hc ltac:(lia) Hez'). lia.
  - (* negative, positive *)
    pose proof (Z.mul_pos_pos _ _ (Pos2Z.is_pos m) Hp).
    pose proof (Z.mul_pos_pos _ _ (Pos2Z.is_pos m') Hp'). lia.
  - (* both positive *)
    destruct (Z.compare_spec e e') as [Heq | Hlt | Hgt]; try discriminate.
    + subst e'. rewrite Pos.compare_cont_spec in Hle. simpl Pos.switch_Eq in Hle.
      destruct (Pos.compare_spec m m') as [-> | Hm | Hm]; simpl in Hle;
        try discriminate; [lia |].
      assert (Zpos m * 2 ^ (e - ez) <= Zpos m' * 2 ^ (e - ez))
        by (apply Z.mul_le_mono_nonneg_r; lia).
      lia.
    + pose proof (canonical_exponent_lt m m' e e' ez Hc Hc' Hlt Hez). lia.
Qed.

(** ** The operations of the latency *)

Lemma binary_round_valid_nonneg (m : positive) (e : Z) :
  -1074 <= e ->
  valid (binary_round prec emax false m e) = true /\
  nonneg (binary_round prec emax false m e) = true /\
  exists m2 e2, binary_round prec emax false m e
                = (if e2 <=? emax - prec then S754_finite false m2 e2 else S754_infinity false).
Proof.
  intros He. destruct (binary_round_shape false m e He) as (m2 & e2 & Hr & Hc & _).
  rewrite Hr. destruct (e2 <=? emax - prec) eqn:Hb.
  - repeat split; [| eauto]. unfold valid, valid_binary, bounded. rewrite Hc, Hb. reflexivity.
    exists m2, e2. now rewrite Hb.
  - repeat split. exists m2, e2. now rewrite Hb.
Qed.

(** [t1 - t0] of two finite readings with [t0 <= t1] is not negative. *)
Lemma sub_nonneg (t0 t1 : float) :
  is_finite t0 = true -> is_finite t1 = true ->
  valid t0 = true -> valid t1 = true ->
  leb t0 t1 = true ->
  valid (sub t1 t0) = true /\ nonneg (sub t1 t0) = true.
Proof.
  intros Hf0 Hf1 Hv0 Hv1 Hle. unfold sub.
  destruct t1 as [s1 | s1 | | s1 m1 e1]; try discriminate Hf1;
    destruct t0 as [s0 | s0 | | s0 m0 e0]; try discriminate Hf0.
  - (* 0 - 0 *)
    destruct s0, s1; split; reflexivity.
  - (* 0 - finite *)
    destruct s0; try discriminate Hle. split; [exact Hv0 | reflexivity].
  - (* finite - 0 *)
    destruct s1; try discriminate Hle. split; [exact Hv1 | reflexivity].
  - (* finite - finite *)
    unfold valid, valid_binary, bounded in Hv0, Hv1.
    apply andb_true_iff in Hv0, Hv1. destruct Hv0 as [Hc0 _], Hv1 as [Hc1 _].
    destruct (canonical_exponent m0 e0 Hc0) as [He0 _].
    destruct (canonical_exponent m1 e1 Hc1) as [He1 _].
    unfold SFsub.
    pose proof (shl_align_spec m1 e1 (Z.min e1 e0)) as Hs1.
    pose proof (shl_align_spec m0 e0 (Z.min e1 e0)) as Hs0.
    destruct (shl_align m1 e1 (Z.min e1 e0)) as [m1' e1'].
    destruct (shl_align m0 e0 (Z.min e1 e0)) as [m0' e0'].
    destruct Hs1 as [-> Hm1], Hs0 as [-> Hm0]. simpl fst.
    pose proof (SFleb_aligned s0 s1 m0 m1 e0 e1 (Z.min e1 e0) Hc0 Hc1
                  ltac:(lia) ltac:(lia) Hle) as Hord.
    replace (Z.min e1 (Z.min e1 e0)) with (Z.min e1 e0) in Hm1 by lia.
    replace (Z.min e0 (Z.min e1 e0)) with (Z.min e1 e0) in Hm0 by lia.
    rewrite <- Hm0, <- Hm1 in Hord.
    destruct (cond_Zopp s1 (Zpos m1') - cond_Zopp s0 (Zpos m0')) as [| p | p] eqn:HM;
      try lia; unfold binary_normalize.
    + split; reflexivity.
    + destruct (binary_round_valid_nonneg p (Z.min e1 e0) ltac:(lia)) as (Hv & Hn & _).
      split; assumption.
Qed.

(** Multiplying by 1000 keeps a number that is not negative so. *)
Lemma mul_1000_nonneg (d : float) :
  valid d = true -> nonneg d = true ->
  valid (mul d f1000) = true /\ nonneg (mul d f1000) = true.
Proof.
  intros Hv Hn. unfold mul, f1000. destruct d as [s | s | | s m e]; try discriminate Hn.
  - destruct s; split; reflexivity.
  - destruct s; try discriminate Hn. split; reflexivity.
  - destruct s; try discriminate Hn. unfold SFmul. simpl xorb.
    unfold valid, valid_binary, bounded in Hv. apply andb_true_iff in Hv. destruct Hv as [Hc _].
    destruct (canonical_exponent m e Hc) as [He _].
    assert (Hd : 53 <= Zdigits2 (Zpos (m * 8796093022208000))).
    { apply (Zdigits2_above _ 52); [lia |]. change (2 ^ 52) with 4503599627370496. lia. }
    destruct (binary_round_aux_shape false (m * 8796093022208000) (e + -43) loc_Exact)
      as (m2 & e2 & Hr & Hc2 & _).
    { rewrite fexp_binary64. lia. }
    { lia. }
    rewrite Hr. destruct (e2 <=? emax - prec) eqn:Hb.
    + split; [| reflexivity]. unfold valid, valid_binary, bounded. now rewrite Hc2, Hb.
    + split; reflexivity.
Qed.

(** Adding a number that is not negative does not decrease a total that is
    not negative. *)
Lemma add_nonneg_ge (x l : float) :
  valid x = true -> nonneg x = true ->
  valid l = true -> nonneg l = true ->
  valid (add x l) = true /\
  nonneg (add x l) = true /\
  leb x (add x l) = true.
Proof.
  intros Hvx Hnx Hvl Hnl. unfold add.
  destruct x as [sx | sx | | sx mx ex]; try discriminate Hnx;
    destruct l as [sl | sl | | sl ml el]; try discriminate Hnl;
    try (destruct sx; try discriminate Hnx); try (destruct sl; try discriminate Hnl);
    try (repeat split; reflexivity);
    try (repeat split; assumption).
  - (* finite + 0 *)
    repeat split; try assumption. apply leb_refl. discriminate.
  - repeat split; try assumption. apply leb_refl. discriminate.
  - (* finite + finite *)
    unfold valid, valid_binary, bounded in Hvx, Hvl.
    apply andb_true_iff in Hvx, Hvl. destruct Hvx as [Hcx _], Hvl as [Hcl _].
    destruct (canonical_exponent mx ex Hcx) as [Hex _].
    destruct (canonical_exponent ml el Hcl) as [Hel _].
    unfold SFadd.
    pose proof (shl_align_spec mx ex (Z.min ex el)) as Hsx.
    pose proof (shl_align_spec ml el (Z.min ex el)) as Hsl.
    destruct (shl_align mx ex (Z.min ex el)) as [mx' ex'].
    destruct (shl_align ml el (Z.min ex el)) as [ml' el'].
    destruct Hsx as [-> Hmx], Hsl as [-> Hml]. simpl fst. simpl cond_Zopp.
    replace (Z.min ex (Z.min ex el)) with (Z.min ex el) in Hmx by lia.
    change (Zpos mx' + Zpos ml') with (Zpos (mx' + ml')). unfold binary_normalize.
    destruct (binary_round_shape false (mx' + ml') (Z.min ex el) ltac:(lia))
      as (m2 & e2 & Hr & Hc2 & Hlow).
    rewrite Hr.
    specialize (Hlow mx ex Hcx).
    assert (Hval : Zpos mx * 2 ^ (ex + 1074) <= Zpos (mx' + ml') * 2 ^ (Z.min ex el + 1074)).
    { rewrite Pos2Z.inj_add, Hmx.
      replace (ex + 1074) with ((ex - Z.min ex el) + (Z.min ex el + 1074)) by lia.
      rewrite Z.pow_add_r by lia.
      pose proof (Z.pow_pos_nonneg 2 (Z.min ex el + 1074) ltac:(lia) ltac:(lia)).
      nia. }
    specialize (Hlow Hval).
    destruct (e2 <=? emax - prec) eqn:Hb.
    + split; [unfold valid, valid_binary, bounded; now rewrite Hc2, Hb |].
      split; [reflexivity |].
      unfold leb, SFleb, SFcompare.
      destruct Hlow as [Hlt | [-> Hm]].
      * apply Z.compare_lt_iff in Hlt. now rewrite Hlt.
      * rewrite Z.compare_refl, Pos.compare_cont_spec. simpl Pos.switch_Eq.
        destruct (Pos.compare_spec mx m2); try reflexivity. lia.
    + repeat split.
Qed.

(** The double of a positive integer is positive or infinite. *)
Lemma of_Z_pos (n : Z) :
  0 < n ->
  exists m2 e2, of_Z n
                = (if e2 <=? emax - prec then S754_finite false m2 e2 else S754_infinity false).
Proof.
  intros Hn. destruct n as [| p | p]; try lia. unfold of_Z, binary_normalize.
  apply (binary_round_valid_nonneg p 0). lia.
Qed.

End Float64Facts.

(** ** The paths through [query_endpoint] *)

Section Paths.

Variable clk : Clock.
Variable build_documents : QueryRequest -> outcome (list Document).
Variable build_answer : QueryRequest -> outcome string.

(** Runs the handler up to its first step that depends on more than the
    method, [Hm] telling which way the test of line 108 goes. *)
Ltac run_query_endpoint Hm :=
  unfold query_endpoint_with, bind, try_except, time_time, eval;
  unfold valid_method in Hm; rewrite Hm; cbn.

(** A method outside the three: the 400 raised at line 109 is caught at
    line 141 and leaves as a 500; the clock was read once. *)
Lemma query_endpoint_invalid_method (request : QueryRequest) (w : World) :
  valid_method (method request) = false ->
  query_endpoint_with clk build_documents build_answer request w
  = (Raised (HTTPException 500 invalid_method_detail),
     mkWorld (stats w) (S (time_calls w)) (now_calls w)).
Proof.
  intros Hm. run_query_endpoint Hm. reflexivity.
Qed.

(** The documents cannot be built: nothing after line 121 is run. *)
Lemma query_endpoint_documents_raise (request : QueryRequest) (w : World) (e : exn) :
  valid_method (method request) = true ->
  build_documents request = Raised e ->
  query_endpoint_with clk build_documents build_answer request w
  = (Raised (HTTPException 500 ("Internal server error: " ++ str_exn e)),
     mkWorld (stats w) (S (time_calls w)) (now_calls w)).
Proof.
  intros Hm Hd. run_query_endpoint Hm. rewrite Hd. reflexivity.
Qed.

(** The answer cannot be built: nothing after line 123 is run. *)
Lemma query_endpoint_answer_raise (request : QueryRequest) (w : World)
      (docs : list Document) (e : exn) :
  valid_method (method request) = true ->
  build_documents request = Returned docs ->
  build_answer request = Raised e ->
  query_endpoint_with clk build_documents build_answer request w
  = (Raised (HTTPException 500 ("Internal server error: " ++ str_exn e)),
     mkWorld (stats w) (S (time_calls w)) (now_calls w)).
Proof.
  intros Hm Hd Ha. run_query_endpoint Hm. rewrite Hd, Ha. reflexivity.
Qed.

(** Both steps return: the request is counted and its latency added. *)
Lemma query_endpoint_success (request : QueryRequest) (w : World)
      (docs : list Document) (a : string) :
  valid_method (method request) = true ->
  build_documents request = Returned docs ->
  build_answer request = Returned a ->
  query_endpoint_with clk build_documents build_answer request w
  = (Returned (mkQueryResponse (query request) a docs (method request)
                               (measured_latency clk w) (isoformat_at clk (now_calls w))),
     mkWorld (mkStats (total_queries (stats w) + 1)
                      (Float64.add (total_latency_ms (stats w)) (measured_latency clk w))
                      (start_time (stats w)))
             (S (S (time_calls w))) (S (now_calls w))).
Proof.
  intros Hm Hd Ha. run_query_endpoint Hm. rewrite Hd, Ha. reflexivity.
Qed.

End Paths.

(** ** The sample documents *)

Lemma in_range (n i : Z) : In i (range n) <-> 0 <= i < n.
Proof.
  unfold range. rewrite in_map_iff. split.
  - intros [k [<- Hk]]. apply in_seq in Hk. lia.
  - intros H. exists (Z.to_nat i). split; [lia | apply in_seq; lia].
Qed.

Lemma length_range (n : Z) : List.length (range n) = Z.to_nat n.
Proof. unfold range. now rewrite length_map, length_seq. Qed.

Lemma float_of_int_finite (n : Z) :
  Float64.is_infinity (Float64.of_Z n) = false -> float_of_int n = Returned (Float64.of_Z n).
Proof.
  unfold float_of_int. destruct (Float64.of_Z n); simpl; intros H;
    [reflexivity | discriminate | reflexivity | reflexivity].
Qed.

Lemma float_of_int_below_100 (i : Z) :
  0 <= i < 100 -> float_of_int i = Returned (Float64.of_Z i).
Proof.
  intros H. apply float_of_int_finite.
  assert (Hall : forallb (fun i => negb (Float64.is_infinity (Float64.of_Z i))) (range 100) = true)
    by (vm_compute; reflexivity).
  rewrite forallb_forall in Hall.
  apply negb_true_iff, Hall, in_range, H.
Qed.

Lemma sample_document_below_100 (i : Z) :
  0 <= i < 100 -> sample_document i = Returned (sample_document_at i).
Proof.
  intros H. unfold sample_document. now rewrite (float_of_int_below_100 i H).
Qed.

Lemma comprehension_returns {A B : Type} (f : A -> outcome B) (g : A -> B) (l : list A) :
  (forall a, In a l -> f a = Returned (g a)) ->
  comprehension f l = Returned (map g l).
Proof.
  induction l as [| a l IH]; intros Hf; simpl.
  - reflexivity.
  - rewrite (Hf a (or_introl eq_refl)). simpl.
    rewrite IH by (intros b Hb; apply Hf; now right). reflexivity.
Qed.

(** With [top_k] in the range [Field] allows, no element of the
    comprehension raises: the list holds one document for each index. *)
Lemma sample_documents_returns (request : QueryRequest) :
  top_k request <= 100 ->
  sample_documents request = Returned (map sample_document_at (range (top_k request))).
Proof.
  intros H. unfold sample_documents. apply comprehension_returns.
  intros i Hi. apply in_range in Hi. apply sample_document_below_100. lia.
Qed.

Lemma sample_scores_decrease (i j : Z) :
  0 <= i < j -> j < 100 ->
  Float64.leb (sample_score j) (sample_score i) = true.
Proof.
  intros Hi Hj.
  assert (Hall : forallb (fun i => forallb (fun j =>
                   (j <=? i) || Float64.leb (sample_score j) (sample_score i))
                   (range 100)) (range 100) = true) by (vm_compute; reflexivity).
  rewrite forallb_forall in Hall.
  assert (Hi' : In i (range 100)) by (apply in_range; lia).
  specialize (Hall i Hi'). rewrite forallb_forall in Hall.
  assert (Hj' : In j (range 100)) by (apply in_range; lia).
  specialize (Hall j Hj'). apply orb_true_iff in Hall.
  destruct Hall as [Hle | Hs]; [apply Z.leb_le in Hle; lia | exact Hs].
Qed.

Lemma StronglySorted_map_seq {A : Type} (R : A -> A -> Prop) (f : Z -> A) (len start : nat) :
  (forall i j, Z.of_nat start <= i < j -> j < Z.of_nat (start + len) -> R (f i) (f j)) ->
  StronglySorted R (map f (map Z.of_nat (seq start len))).
Proof.
  revert start. induction len as [| len IH]; intros start HR; simpl.
  - constructor.
  - constructor.
    + apply IH. intros i j Hi Hj. apply HR; lia.
    + apply Forall_forall. intros x Hx.
      apply in_map_iff in Hx. destruct Hx as [j [<- Hj]].
      apply in_map_iff in Hj. destruct Hj as [k [<- Hk]].
      apply in_seq in Hk. apply HR; lia.
Qed.

Lemma sample_documents_sorted (k : Z) :
  k <= 100 -> StronglySorted by_score (map sample_document_at (range k)).
Proof.
  intros Hk. unfold range. apply StronglySorted_map_seq.
  intros i j Hi Hj. unfold by_score. simpl. apply sample_scores_decrease; lia.
Qed.

Lemma sample_documents_ranks (k : Z) :
  map rank (map sample_document_at (range k))
  = map Z.of_nat (seq 1 (List.length (map sample_document_at (range k)))).
Proof.
  rewrite length_map, length_range. unfold range.
  rewrite !map_map. simpl. rewrite <- seq_shift, map_map.
  apply map_ext. intros n. lia.
Qed.

Lemma sample_documents_ids (k : Z) :
  map doc_id (map sample_document_at (range k))
  = map (fun i => ("doc" ++ str_int i)%string) (range k).
Proof. rewrite map_map. reflexivity. Qed.

(** ** What the routes answer *)

Lemma validate_QueryRequest_bounds (body : QueryBody) (request : QueryRequest) :
  validate_QueryRequest body = Some request ->
  1 <= len (query request) <= 500 /\ 1 <= top_k request <= 100.
Proof.
  unfold validate_QueryRequest. destruct (body_query body) as [q |]; [| discriminate].
  destruct (_ && _) eqn:Hc; [| discriminate].
  intros [= <-]. simpl.
  repeat (apply andb_true_iff in Hc; destruct Hc as [Hc ?]). lia.
Qed.

Lemma post_query_field_error (clk : Clock) (body : QueryBody) (w : World) :
  validate_QueryRequest body = None ->
  post_query clk body w = (Error 422 "Unprocessable Entity", w).
Proof. intros H. unfold post_query. now rewrite H. Qed.

Lemma post_query_invalid_method (clk : Clock) (body : QueryBody) (request : QueryRequest)
      (w : World) :
  validate_QueryRequest body = Some request ->
  valid_method (method request) = false ->
  post_query clk body w = (Error 500 invalid_method_detail, world_after_refusal w).
Proof.
  intros Hv Hm. unfold post_query, query_endpoint. rewrite Hv.
  now rewrite (query_endpoint_invalid_method clk _ _ request w Hm).
Qed.

Lemma post_query_success (clk : Clock) (body : QueryBody) (request : QueryRequest)
      (w : World) :
  validate_QueryRequest body = Some request ->
  valid_method (method request) = true ->
  post_query clk body w
  = (OK (mkQueryResponse (query request)
                         ("Sample answer for: " ++ query request)
                         (map sample_document_at (range (top_k request)))
                         (method request)
                         (measured_latency clk w)
                         (isoformat_at clk (now_calls w))),
     world_after_query clk w).
Proof.
  intros Hv Hm. unfold post_query, query_endpoint. rewrite Hv.
  destruct (validate_QueryRequest_bounds body request Hv) as [_ [_ Hk]].
  now rewrite (query_endpoint_success clk _ _ request w _ _ Hm
                 (sample_documents_returns request Hk) eq_refl).
Qed.

Lemma health_check_stats (clk : Clock) (w : World) :
  snd (health_check clk w) = mkWorld (stats w) (S (time_calls w)) (now_calls w).
Proof.
  unfold health_check, bind, time_time, get_stats, eval, ret. cbn.
  destruct (0 <? total_queries (stats w)); [| reflexivity].
  destruct (obind _ _); reflexivity.
Qed.

Lemma get_health_world (clk : Clock) (w : World) :
  snd (get_health clk w) = mkWorld (stats w) (S (time_calls w)) (now_calls w).
Proof.
  unfold get_health. rewrite <- (health_check_stats clk w).
  destruct (health_check clk w). reflexivity.
Qed.

(** ** The method check *)

(** C1 (as the code behaves). A POST /query whose method is not one of
    "sparse", "dense", "hybrid" is answered with status 500, not 400: the
    [HTTPException] of status 400 raised inside the try block is caught by
    [except Exception] and raised again as a 500. The counters
    [total_queries] and [total_latency_ms] are unchanged. *)
Theorem invalid_method_answered_500 (clk : Clock) (body : QueryBody)
        (request : QueryRequest) (w : World) :
  validate_QueryRequest body = Some request ->
  valid_method (method request) = false ->
  exists w',
    post_query clk body w = (Error 500 invalid_method_detail, w') /\
    total_queries (stats w') = total_queries (stats w) /\
    total_latency_ms (stats w') = total_latency_ms (stats w).
Proof.
  intros Hv Hm. exists (world_after_refusal w).
  rewrite (post_query_invalid_method clk body request w Hv Hm). auto.
Qed.

Lemma invalid_method_answered_500_fuzzy :
  validate_QueryRequest body_fuzzy
  = Some (mkQueryRequest "what is rag?" 3 "fuzzy") /\
  valid_method "fuzzy" = false /\
  exists w',
    post_query example_clock body_fuzzy (init_world example_clock)
    = (Error 500 invalid_method_detail, w') /\
    total_queries (stats w') = total_queries (stats (init_world example_clock)) /\
    total_latency_ms (stats w') = total_latency_ms (stats (init_world example_clock)).
Proof.
  split; [reflexivity |]. split; [reflexivity |].
  apply (invalid_method_answered_500 example_clock body_fuzzy
           (mkQueryRequest "what is rag?" 3 "fuzzy")); reflexivity.
Defined.

(** ** Validation and the timer *)

(** C2 (counterexample). The request with method "fuzzy" fails validation,
    but [query_endpoint] has read the clock into [start_time] (line 104)
    before it checks the method (line 108). *)
Lemma invalid_method_reported_after_timer :
  fails_validation body_fuzzy = true /\
  ~ reported_before_timer example_clock body_fuzzy (init_world example_clock).
Proof.
  split; [reflexivity |].
  intros (c & d & w' & Hq & Ht & _).
  rewrite (post_query_invalid_method example_clock body_fuzzy
             (mkQueryRequest "what is rag?" 3 "fuzzy")) in Hq by reflexivity.
  injection Hq as _ _ <-. discriminate Ht.
Qed.

(** C2 (amended). A request that fails validation is answered with an
    error and the stats are not modified. When a field is at fault (query
    empty or too long, [top_k] out of range) the error is reported with
    no clock read made; when the method is at fault the error is reported
    after the one clock read that starts the timer. *)
Theorem validation_error_leaves_stats (clk : Clock) (body : QueryBody) (w : World) :
  fails_validation body = true ->
  exists c d,
    post_query clk body w
    = (Error c d,
       mkWorld (stats w)
               (if field_error body then time_calls w else S (time_calls w))
               (now_calls w)).
Proof.
  unfold fails_validation, field_error. intros Hf.
  destruct (validate_QueryRequest body) as [request |] eqn:Hv.
  - apply negb_true_iff in Hf.
    rewrite (post_query_invalid_method clk body request w Hv Hf). eauto.
  - rewrite (post_query_field_error clk body w Hv). destruct w. eauto.
Qed.

Lemma validation_error_leaves_stats_empty_query :
  fails_validation body_empty_query = true /\
  exists c d,
    post_query example_clock body_empty_query (init_world example_clock)
    = (Error c d,
       mkWorld (stats (init_world example_clock))
               (if field_error body_empty_query
                then time_calls (init_world example_clock)
                else S (time_calls (init_world example_clock)))
               (now_calls (init_world example_clock))).
Proof.
  split; [reflexivity |].
  apply (validation_error_leaves_stats example_clock body_empty_query). reflexivity.
Defined.

(** ** Failures after validation *)

(** C3. When the construction of the documents or of the answer raises,
    the request is aborted: the handler raises an [HTTPException] of
    status 500, answered as such, and [stats] is as it was. *)
Theorem failed_step_aborts_unrecorded (clk : Clock)
        (build_documents : QueryRequest -> outcome (list Document))
        (build_answer : QueryRequest -> outcome string)
        (request : QueryRequest) (w : World) (e : exn) :
  valid_method (method request) = true ->
  build_documents request = Raised e \/
  (exists docs, build_documents request = Returned docs /\ build_answer request = Raised e) ->
  exists detail w',
    query_endpoint_with clk build_documents build_answer request w
    = (Raised (HTTPException 500 detail), w') /\
    respond (fst (query_endpoint_with clk build_documents build_answer request w))
    = Error 500 detail /\
    stats w' = stats w.
Proof.
  intros Hm [Hd | [docs [Hd Ha]]].
  - rewrite (query_endpoint_documents_raise clk _ _ request w e Hm Hd).
    eexists. eexists. repeat split.
  - rewrite (query_endpoint_answer_raise clk _ _ request w docs e Hm Hd Ha).
    eexists. eexists. repeat split.
Qed.

Lemma failed_step_aborts_unrecorded_out_of_memory :
  valid_method "hybrid" = true /\
  exists detail w',
    query_endpoint_with example_clock sample_documents (fun _ => Raised out_of_memory)
                        (mkQueryRequest "what is rag?" 3 "hybrid")
                        (init_world example_clock)
    = (Raised (HTTPException 500 detail), w') /\
    respond (fst (query_endpoint_with example_clock sample_documents
                    (fun _ => Raised out_of_memory)
                    (mkQueryRequest "what is rag?" 3 "hybrid")
                    (init_world example_clock)))
    = Error 500 detail /\
    stats w' = stats (init_world example_clock).
Proof.
  split; [reflexivity |].
  apply (failed_step_aborts_unrecorded example_clock sample_documents
           (fun _ => Raised out_of_memory)
           (mkQueryRequest "what is rag?" 3 "hybrid")
           (init_world example_clock) out_of_memory).
  - reflexivity.
  - right. eexists. split; reflexivity.
Defined.

(** ** The documents of a served query *)

(** What a 200 answer of POST /query was computed from. *)
Lemma post_query_OK_inv (clk : Clock) (body : QueryBody) (w w' : World)
      (resp : QueryResponse) :
  post_query clk body w = (OK resp, w') ->
  exists request,
    validate_QueryRequest body = Some request /\
    valid_method (method request) = true /\
    documents resp = map sample_document_at (range (top_k request)) /\
    w' = world_after_query clk w.
Proof.
  intros Hq. destruct (validate_QueryRequest body) as [request |] eqn:Hv.
  - destruct (valid_method (method request)) eqn:Hm.
    + rewrite (post_query_success clk body request w Hv Hm) in Hq.
      injection Hq as <- <-. exists request. auto.
    + rewrite (post_query_invalid_method clk body request w Hv Hm) in Hq. discriminate.
  - rewrite (post_query_field_error clk body w Hv) in Hq. discriminate.
Qed.

(** C5. A valid request (query of 1 to 500 characters, [top_k] in 1..100,
    one of the three methods) is answered 200 with at most [top_k]
    documents. *)
Theorem documents_at_most_top_k (clk : Clock) (body : QueryBody)
        (request : QueryRequest) (w : World) :
  validate_QueryRequest body = Some request ->
  valid_method (method request) = true ->
  exists resp w',
    post_query clk body w = (OK resp, w') /\
    Z.of_nat (List.length (documents resp)) <= top_k request.
Proof.
  intros Hv Hm. rewrite (post_query_success clk body request w Hv Hm).
  eexists. eexists. split; [reflexivity |]. simpl.
  rewrite length_map, length_range.
  destruct (validate_QueryRequest_bounds body request Hv) as [_ Hk]. lia.
Qed.

Lemma documents_at_most_top_k_hybrid :
  validate_QueryRequest body_hybrid = Some (mkQueryRequest "what is rag?" 3 "hybrid") /\
  valid_method "hybrid" = true /\
  exists resp w',
    post_query example_clock body_hybrid (init_world example_clock) = (OK resp, w') /\
    Z.of_nat (List.length (documents resp)) <= 3.
Proof.
  split; [reflexivity |]. split; [reflexivity |].
  apply (documents_at_most_top_k example_clock body_hybrid
           (mkQueryRequest "what is rag?" 3 "hybrid")); reflexivity.
Defined.

(** C9. A valid request is answered with exactly [top_k] documents, whose
    identifiers are doc0, doc1, ..., doc(top_k-1) in this order. *)
Theorem documents_exactly_top_k (clk : Clock) (body : QueryBody)
        (request : QueryRequest) (w : World) :
  validate_QueryRequest body = Some request ->
  valid_method (method request) = true ->
  exists resp w',
    post_query clk body w = (OK resp, w') /\
    Z.of_nat (List.length (documents resp)) = top_k request /\
    map doc_id (documents resp)
    = map (fun i => ("doc" ++ str_int i)%string) (range (top_k request)).
Proof.
  intros Hv Hm. rewrite (post_query_success clk body request w Hv Hm).
  eexists. eexists. split; [reflexivity |]. simpl. split.
  - rewrite length_map, length_range.
    destruct (validate_QueryRequest_bounds body request Hv) as [_ Hk]. lia.
  - apply sample_documents_ids.
Qed.

Lemma documents_exactly_top_k_hybrid :
  validate_QueryRequest body_hybrid = Some (mkQueryRequest "what is rag?" 3 "hybrid") /\
  valid_method "hybrid" = true /\
  exists resp w',
    post_query example_clock body_hybrid (init_world example_clock) = (OK resp, w') /\
    Z.of_nat (List.length (documents resp)) = 3 /\
    map doc_id (documents resp) = ["doc0"; "doc1"; "doc2"]%string.
Proof.
  split; [reflexivity |]. split; [reflexivity |].
  apply (documents_exactly_top_k example_clock body_hybrid
           (mkQueryRequest "what is rag?" 3 "hybrid")); reflexivity.
Defined.

(** C6. In the documents of a 200 answer of POST /query the score of a
    document is at most the score of every document ranked before it, and
    the ranks are 1, 2, ..., len(documents). *)
Theorem documents_sorted_and_ranked (clk : Clock) (body : QueryBody) (w w' : World)
        (resp : QueryResponse) :
  post_query clk body w = (OK resp, w') ->
  StronglySorted by_score (documents resp) /\
  map rank (documents resp) = map Z.of_nat (seq 1 (List.length (documents resp))).
Proof.
  intros Hq. destruct (post_query_OK_inv clk body w w' resp Hq)
    as (request & Hv & _ & -> & _).
  destruct (validate_QueryRequest_bounds body request Hv) as [_ [_ Hk]].
  split; [now apply sample_documents_sorted | apply sample_documents_ranks].
Qed.

Lemma documents_sorted_and_ranked_hybrid :
  post_query example_clock body_hybrid (init_world example_clock)
  = (OK (mkQueryResponse "what is rag?" "Sample answer for: what is rag?"
                         documents_hybrid_3 "hybrid" Float64.f1000 "2024-01-01T00:00:00"),
     world_after_query example_clock (init_world example_clock)) /\
  StronglySorted by_score documents_hybrid_3 /\
  map rank documents_hybrid_3 = [1; 2; 3].
Proof.
  split; [reflexivity |].
  apply (documents_sorted_and_ranked example_clock body_hybrid (init_world example_clock)
           (world_after_query example_clock (init_world example_clock))
           (mkQueryResponse "what is rag?" "Sample answer for: what is rag?"
                            documents_hybrid_3 "hybrid" Float64.f1000 "2024-01-01T00:00:00")).
  reflexivity.
Defined.

(** ** Determinism *)

Lemma post_query_ranking (clk : Clock) (body : QueryBody) (w : World) :
  ranking (fst (post_query clk body w))
  = match validate_QueryRequest body with
    | Some request =>
        if valid_method (method request)
        then Some (map (fun d => (doc_id d, score d))
                       (map sample_document_at (range (top_k request))))
        else None
    | None => None
    end.
Proof.
  destruct (validate_QueryRequest body) as [request |] eqn:Hv.
  - destruct (valid_method (method request)) eqn:Hm.
    + now rewrite (post_query_success clk body request w Hv Hm).
    + now rewrite (post_query_invalid_method clk body request w Hv Hm).
  - now rewrite (post_query_field_error clk body w Hv).
Qed.

(** C7. Two POST /query requests with the same query text, [top_k] and
    method get the same ranked identifiers and scores, whatever the stats
    and the clock are when each is served. *)
Theorem retrieval_deterministic (clk1 clk2 : Clock) (w1 w2 : World) (body1 body2 : QueryBody) :
  validate_QueryRequest body1 = validate_QueryRequest body2 ->
  ranking (fst (post_query clk1 body1 w1)) = ranking (fst (post_query clk2 body2 w2)).
Proof.
  intros H.
  rewrite (post_query_ranking clk1 body1 w1), (post_query_ranking clk2 body2 w2).
  rewrite H. reflexivity.
Qed.

Lemma retrieval_deterministic_defaults :
  validate_QueryRequest body_defaults = validate_QueryRequest body_explicit_defaults /\
  ranking (fst (post_query example_clock body_defaults (init_world example_clock)))
  = ranking (fst (post_query later_clock body_explicit_defaults
                    (world_after_query later_clock (init_world later_clock)))).
Proof.
  split; [reflexivity |].
  apply (retrieval_deterministic example_clock later_clock). reflexivity.
Defined.

(** ** GET /health *)

(** C10. [health_check] leaves [stats] as it found it: [total_queries],
    [total_latency_ms] and [start_time] are the same after the call, whether
    it returns or raises. *)
Theorem health_check_leaves_stats (clk : Clock) (w : World) :
  stats (snd (health_check clk w)) = stats w /\
  stats (snd (get_health clk w)) = stats w.
Proof.
  split.
  - rewrite (health_check_stats clk w). reflexivity.
  - rewrite (get_health_world clk w). reflexivity.
Qed.


(** The double of a positive count is never zero: the division of line 82
    does not raise [ZeroDivisionError]. *)
Lemma float_of_int_pos_nonzero (n : Z) (c : float) :
  0 < n -> float_of_int n = Returned c -> Float64.is_zero c = false.
Proof.
  intros Hn. unfold float_of_int.
  destruct (Float64Facts.of_Z_pos n Hn) as (m2 & e2 & ->).
  destruct (e2 <=? Float64.emax - Float64.prec); [intros [= <-]; reflexivity | discriminate].
Qed.

(** No query was served yet: the average is the [0] of the else branch. *)
Lemma health_check_idle (clk : Clock) (w : World) :
  total_queries (stats w) <= 0 ->
  health_check clk w
  = (Returned (mkHealthResponse "healthy"
                 (Float64.sub (time_at clk (time_calls w)) (start_time (stats w)))
                 (total_queries (stats w)) Float64.f0),
     mkWorld (stats w) (S (time_calls w)) (now_calls w)).
Proof.
  intros H. unfold health_check, bind, time_time, get_stats, ret. cbn.
  destruct (Z.ltb_spec 0 (total_queries (stats w))); [lia | reflexivity].
Qed.

(** Queries were served: the average is the quotient of line 82. *)
Lemma health_check_busy (clk : Clock) (w : World) (c : float) :
  0 < total_queries (stats w) ->
  float_of_int (total_queries (stats w)) = Returned c ->
  health_check clk w
  = (Returned (mkHealthResponse "healthy"
                 (Float64.sub (time_at clk (time_calls w)) (start_time (stats w)))
                 (total_queries (stats w))
                 (Float64.div (total_latency_ms (stats w)) c)),
     mkWorld (stats w) (S (time_calls w)) (now_calls w)).
Proof.
  intros H Hc. unfold health_check, bind, time_time, get_stats, ret, eval. cbn.
  destruct (Z.ltb_spec 0 (total_queries (stats w))); [| lia].
  rewrite Hc. simpl. unfold float_truediv.
  now rewrite (float_of_int_pos_nonzero _ c H Hc).
Qed.

(** A count past the largest double: the conversion raises, and GET /health
    is answered 500. *)
Lemma health_check_overflow (clk : Clock) (w : World) (e : exn) :
  0 < total_queries (stats w) ->
  float_of_int (total_queries (stats w)) = Raised e ->
  health_check clk w = (Raised e, mkWorld (stats w) (S (time_calls w)) (now_calls w)).
Proof.
  intros H Hc. unfold health_check, bind, time_time, get_stats, ret, eval. cbn.
  destruct (Z.ltb_spec 0 (total_queries (stats w))); [| lia].
  rewrite Hc. reflexivity.
Qed.

(** C4. The average latency GET /health reports is [total_latency_ms]
    divided by [total_queries] (the float division of Python, the count
    converted to a double) when [total_queries > 0], and 0 otherwise, in
    every state of [stats] whose count has a double. *)
Theorem health_average_latency (clk : Clock) (w : World) (c : float) :
  float_of_int (total_queries (stats w)) = Returned c ->
  exists r w',
    get_health clk w = (OK r, w') /\
    avg_latency_ms r
    = if 0 <? total_queries (stats w)
      then Float64.div (total_latency_ms (stats w)) c
      else Float64.f0.
Proof.
  intros Hc. unfold get_health.
  destruct (Z.ltb_spec 0 (total_queries (stats w))) as [Hpos | Hle].
  - rewrite (health_check_busy clk w c Hpos Hc). simpl. eauto.
  - rewrite (health_check_idle clk w Hle). simpl. eauto.
Qed.

Lemma health_average_latency_4_queries :
  float_of_int 4 = Returned (Float64.of_Z 4) /\
  exists r w',
    get_health example_clock world_4_queries = (OK r, w') /\
    avg_latency_ms r = Float64.div (Float64.of_Z 10) (Float64.of_Z 4).
Proof.
  split; [reflexivity |].
  apply (health_average_latency example_clock world_4_queries (Float64.of_Z 4)).
  reflexivity.
Defined.

(** Ten milliseconds over four queries: 2.5. *)
Example average_of_4_queries :
  Float64.div (Float64.of_Z 10) (Float64.of_Z 4) = S754_finite false 5629499534213120 (-51).
Proof. reflexivity. Qed.

(** No query served: 0.0. *)
Example average_at_start :
  fst (get_health example_clock (init_world example_clock))
  = OK (mkHealthResponse "healthy" (S754_finite false 4503599627370496 (-52)) 0 Float64.f0).
Proof. reflexivity. Qed.

(** ** The counters over the life of the process *)

(** A request leaves [stats] as it was, or it is a served query. *)
Lemma handle_stats (clk : Clock) (rq : ApiRequest) (w : World) :
  stats (handle clk rq w) = stats w \/ handle clk rq w = world_after_query clk w.
Proof.
  destruct rq as [| | body]; simpl.
  - left. reflexivity.
  - left. now rewrite get_health_world.
  - destruct (validate_QueryRequest body) as [request |] eqn:Hv.
    + destruct (valid_method (method request)) eqn:Hm.
      * right. now rewrite (post_query_success clk body request w Hv Hm).
      * left. now rewrite (post_query_invalid_method clk body request w Hv Hm).
    + left. now rewrite (post_query_field_error clk body w Hv).
Qed.

(** Whether a request is a served query decides what it does to [stats]. *)
Lemma handle_served (clk : Clock) (rq : ApiRequest) (w : World) :
  served rq = true -> handle clk rq w = world_after_query clk w.
Proof.
  destruct rq as [| | body]; try discriminate. simpl. unfold fails_validation.
  destruct (validate_QueryRequest body) as [request |] eqn:Hv; [| discriminate].
  intros Hm. apply negb_true_iff, negb_false_iff in Hm.
  now rewrite (post_query_success clk body request w Hv Hm).
Qed.

Lemma handle_not_served (clk : Clock) (rq : ApiRequest) (w : World) :
  served rq = false -> stats (handle clk rq w) = stats w.
Proof.
  destruct rq as [| | body]; simpl.
  - reflexivity.
  - intros _. now rewrite get_health_world.
  - unfold fails_validation.
    destruct (validate_QueryRequest body) as [request |] eqn:Hv.
    + intros Hm. apply negb_false_iff, negb_true_iff in Hm.
      now rewrite (post_query_invalid_method clk body request w Hv Hm).
    + intros _. now rewrite (post_query_field_error clk body w Hv).
Qed.

(** With a steady clock the latency a request measures is a double that is
    not negative. *)
Lemma measured_latency_nonneg (clk : Clock) (w : World) :
  steady clk ->
  Float64.valid (measured_latency clk w) = true /\
  Float64.nonneg (measured_latency clk w) = true.
Proof.
  intros Hclk. unfold measured_latency.
  destruct (Hclk (time_calls w)) as (Hf0 & Hv0 & Hle).
  destruct (Hclk (S (time_calls w))) as (Hf1 & Hv1 & _).
  destruct (Float64Facts.sub_nonneg _ _ Hf0 Hf1 Hv0 Hv1 Hle) as [Hv Hn].
  now apply Float64Facts.mul_1000_nonneg.
Qed.

Lemma handle_sound (clk : Clock) (rq : ApiRequest) (w : World) :
  steady clk -> sound_total w ->
  sound_total (handle clk rq w) /\ counters_non_decreasing clk rq w.
Proof.
  intros Hclk [Hv Hn]. unfold sound_total, counters_non_decreasing.
  destruct (handle_stats clk rq w) as [-> | ->].
  - repeat split; try assumption; try lia.
    apply Float64Facts.leb_refl. intros Hnan. rewrite Hnan in Hn. discriminate Hn.
  - simpl. destruct (measured_latency_nonneg clk w Hclk) as [Hvl Hnl].
    destruct (Float64Facts.add_nonneg_ge _ _ Hv Hn Hvl Hnl) as (Hv' & Hn' & Hle).
    repeat split; try assumption. lia.
Qed.

Lemma serve_sound (clk : Clock) (rqs : list ApiRequest) (w : World) :
  steady clk -> sound_total w -> sound_total (serve clk rqs w).
Proof.
  intros Hclk. revert w. induction rqs as [| rq rqs IH]; intros w Hw; simpl.
  - assumption.
  - apply IH. now apply handle_sound.
Qed.

Lemma init_world_sound (clk : Clock) : sound_total (init_world clk).
Proof. split; reflexivity. Qed.

Lemma eight_ticks_clock_steady : steady eight_ticks_clock.
Proof.
  intros n. do 9 (destruct n as [| n]; [now vm_compute |]). now vm_compute.
Qed.

(** C8 (counterexample). [time.time()] is the wall clock: when it is set
    back between the two reads of a request, the latency measured is
    negative and [total_latency_ms] decreases. Here the clock goes from
    1700000010 to 1700000005 and the total from 0.0 to -5000.0. *)
Lemma total_latency_decreases_when_clock_steps_back :
  ~ counters_non_decreasing stepped_back_clock (POST_query body_hybrid)
      (init_world stepped_back_clock).
Proof. intros [_ H]. vm_compute in H. discriminate H. Qed.

Example total_latency_after_step_back :
  total_latency_ms (stats (handle stepped_back_clock (POST_query body_hybrid)
                             (init_world stepped_back_clock)))
  = S754_finite true 5497558138880000 (-40).
Proof. reflexivity. Qed.

(** C8 (amended). Whatever the clock does, [total_queries] does not
    decrease: a served query adds exactly 1 to it and no other request
    changes it; and [total_latency_ms] is changed by a served query only,
    which adds the latency it measured. When the readings of
    [time.time()] are finite and never go back, that latency is not
    negative and [total_latency_ms] does not decrease, at any point of
    the life of the process. *)
Theorem counters_over_lifetime (clk : Clock) (rq : ApiRequest) :
  (forall w,
     stats (handle clk rq w)
     = if served rq
       then mkStats (total_queries (stats w) + 1)
                    (Float64.add (total_latency_ms (stats w)) (measured_latency clk w))
                    (start_time (stats w))
       else stats w) /\
  (forall w, total_queries (stats w) <= total_queries (stats (handle clk rq w))) /\
  (steady clk ->
   forall rqs,
     let w := serve clk rqs (init_world clk) in
     Float64.nonneg (measured_latency clk w) = true /\
     Float64.leb (total_latency_ms (stats w))
                 (total_latency_ms (stats (handle clk rq w))) = true).
Proof.
  assert (Hstats : forall w,
            stats (handle clk rq w)
            = if served rq
              then mkStats (total_queries (stats w) + 1)
                           (Float64.add (total_latency_ms (stats w)) (measured_latency clk w))
                           (start_time (stats w))
              else stats w).
  { intros w. destruct (served rq) eqn:Hs.
    - rewrite (handle_served clk rq w Hs). reflexivity.
    - apply handle_not_served. exact Hs. }
  split; [exact Hstats |]. split.
  - intros w. rewrite Hstats. destruct (served rq); simpl; lia.
  - intros Hclk rqs w.
    assert (Hw : sound_total w) by (apply serve_sound; [assumption | apply init_world_sound]).
    split; [now apply measured_latency_nonneg |].
    now apply (handle_sound clk rq w Hclk Hw).
Qed.

(** On the clock that is set back the count still goes from 0 to 1 and the
    total is the sum of line 130; on a steady clock the latency added is
    not negative and the total does not decrease. *)
Lemma counters_over_lifetime_two_clocks :
  stats (handle stepped_back_clock (POST_query body_hybrid) (init_world stepped_back_clock))
  = mkStats 1 (Float64.add Float64.f0
                 (measured_latency stepped_back_clock (init_world stepped_back_clock)))
            (Float64.of_Z 1700000000) /\
  steady eight_ticks_clock /\
  let w := serve eight_ticks_clock [POST_query body_hybrid; GET_health]
                 (init_world eight_ticks_clock) in
  Float64.nonneg (measured_latency eight_ticks_clock w) = true /\
  Float64.leb (total_latency_ms (stats w))
              (total_latency_ms (stats (handle eight_ticks_clock (POST_query body_hybrid) w)))
  = true.
Proof.
  split.
  - exact (proj1 (counters_over_lifetime stepped_back_clock (POST_query body_hybrid))
             (init_world stepped_back_clock)).
  - split; [exact eight_ticks_clock_steady |].
    exact (proj2 (proj2 (counters_over_lifetime eight_ticks_clock (POST_query body_hybrid)))
             eight_ticks_clock_steady [POST_query body_hybrid; GET_health]).
Defined.

(** Two queries of one second each: the total goes from 1000.0 to 2000.0. *)
Example counters_after_two_queries :
  stats (serve eight_ticks_clock [POST_query body_hybrid; GET_health; POST_query body_hybrid]
               (init_world eight_ticks_clock))
  = mkStats 2 (S754_finite false 8796093022208000 (-42)) (Float64.of_Z 1700000000).
Proof. reflexivity. Qed.

(** * Further properties *)

(** ** The answers of POST /query *)

(** The whole of a 200 answer of POST /query. *)
Lemma post_query_OK_response (clk : Clock) (body : QueryBody) (w w' : World)
      (resp : QueryResponse) :
  post_query clk body w = (OK resp, w') ->
  exists request,
    validate_QueryRequest body = Some request /\
    valid_method (method request) = true /\
    resp = mkQueryResponse (query request) ("Sample answer for: " ++ query request)
                           (map sample_document_at (range (top_k request)))
                           (method request) (measured_latency clk w)
                           (isoformat_at clk (now_calls w)) /\
    w' = world_after_query clk w.
Proof.
  intros Hq. destruct (validate_QueryRequest body) as [request |] eqn:Hv.
  - destruct (valid_method (method request)) eqn:Hm.
    + rewrite (post_query_success clk body request w Hv Hm) in Hq.
      injection Hq as <- <-. exists request. auto.
    + rewrite (post_query_invalid_method clk body request w Hv Hm) in Hq. discriminate.
  - rewrite (post_query_field_error clk body w Hv) in Hq. discriminate.
Qed.

Lemma validate_QueryRequest_fields (body : QueryBody) (request : QueryRequest) :
  validate_QueryRequest body = Some request ->
  body_query body = Some (query request) /\
  top_k request = or_default (body_top_k body) 10 /\
  method request = or_default (body_method body) "hybrid"%string.
Proof.
  unfold validate_QueryRequest. destruct (body_query body) as [q |]; [| discriminate].
  destruct (_ && _); [| discriminate]. intros [= <-]. auto.
Qed.


(** X2. A 200 answer echoes the query and the method of the request, with
    the defaults where the body left them out, and its answer is the
    query after "Sample answer for: ". *)
Theorem served_response_echoes (clk : Clock) (body : QueryBody) (w w' : World)
        (resp : QueryResponse) :
  post_query clk body w = (OK resp, w') ->
  body_query body = Some (resp_query resp) /\
  resp_method resp = or_default (body_method body) "hybrid"%string /\
  answer resp = ("Sample answer for: " ++ resp_query resp)%string.
Proof.
  intros Hq. destruct (post_query_OK_response clk body w w' resp Hq)
    as (request & Hv & _ & -> & _).
  destruct (validate_QueryRequest_fields body request Hv) as (Hquery & _ & Hmethod).
  simpl. auto.
Qed.

(** X3. The latency a 200 answer reports is the latency recorded: the
    request adds 1 to [total_queries] and its [latency_ms] to
    [total_latency_ms], and leaves [start_time] as it was. *)
Theorem reported_latency_is_recorded (clk : Clock) (body : QueryBody) (w w' : World)
        (resp : QueryResponse) :
  post_query clk body w = (OK resp, w') ->
  stats w' = mkStats (total_queries (stats w) + 1)
                     (Float64.add (total_latency_ms (stats w)) (latency_ms resp))
                     (start_time (stats w)).
Proof.
  intros Hq. destruct (post_query_OK_response clk body w w' resp Hq)
    as (request & _ & _ & -> & ->).
  reflexivity.
Qed.

(** ** The documents *)

Lemma firstn_seq (n start len : nat) :
  firstn n (seq start len) = seq start (Nat.min n len).
Proof.
  revert start len. induction n as [| n IH]; intros start [| len]; simpl; try reflexivity.
  now rewrite IH.
Qed.

Lemma firstn_range (k1 k2 : Z) :
  k1 <= k2 -> firstn (Z.to_nat k1) (range k2) = range k1.
Proof.
  intros H. unfold range. rewrite firstn_map, firstn_seq.
  now rewrite Nat.min_l by lia.
Qed.

(** X4. The documents of a 200 answer depend on [top_k] alone: two
    requests with the same [top_k] get the same documents, whatever
    their query texts and methods. *)
Theorem documents_depend_on_top_k_only (clk1 clk2 : Clock) (body1 body2 : QueryBody)
        (w1 w1' w2 w2' : World) (resp1 resp2 : QueryResponse) :
  post_query clk1 body1 w1 = (OK resp1, w1') ->
  post_query clk2 body2 w2 = (OK resp2, w2') ->
  or_default (body_top_k body1) 10 = or_default (body_top_k body2) 10 ->
  documents resp1 = documents resp2.
Proof.
  intros H1 H2 Hk.
  destruct (post_query_OK_response _ _ _ _ _ H1) as (r1 & Hv1 & _ & -> & _).
  destruct (post_query_OK_response _ _ _ _ _ H2) as (r2 & Hv2 & _ & -> & _).
  destruct (validate_QueryRequest_fields _ _ Hv1) as (_ & Hk1 & _).
  destruct (validate_QueryRequest_fields _ _ Hv2) as (_ & Hk2 & _).
  simpl. congruence.
Qed.

(** X5. The documents of a request are the first ones of the documents
    of any request that asks for more. *)
Theorem documents_prefix (clk1 clk2 : Clock) (body1 body2 : QueryBody)
        (w1 w1' w2 w2' : World) (resp1 resp2 : QueryResponse) :
  post_query clk1 body1 w1 = (OK resp1, w1') ->
  post_query clk2 body2 w2 = (OK resp2, w2') ->
  or_default (body_top_k body1) 10 <= or_default (body_top_k body2) 10 ->
  documents resp1
  = firstn (Z.to_nat (or_default (body_top_k body1) 10)) (documents resp2).
Proof.
  intros H1 H2 Hk.
  destruct (post_query_OK_response _ _ _ _ _ H1) as (r1 & Hv1 & _ & -> & _).
  destruct (post_query_OK_response _ _ _ _ _ H2) as (r2 & Hv2 & _ & -> & _).
  destruct (validate_QueryRequest_fields _ _ Hv1) as (_ & Hk1 & _).
  destruct (validate_QueryRequest_fields _ _ Hv2) as (_ & Hk2 & _).
  simpl. rewrite firstn_map, <- Hk1, firstn_range by lia. reflexivity.
Qed.

Lemma sample_scores_strictly_decrease (i j : Z) :
  0 <= i < j -> j < 100 ->
  Float64.ltb (sample_score j) (sample_score i) = true.
Proof.
  intros Hi Hj.
  assert (Hall : forallb (fun i => forallb (fun j =>
                   (j <=? i) || Float64.ltb (sample_score j) (sample_score i))
                   (range 100)) (range 100) = true) by (vm_compute; reflexivity).
  rewrite forallb_forall in Hall.
  specialize (Hall i (proj2 (in_range 100 i) ltac:(lia))).
  rewrite forallb_forall in Hall.
  specialize (Hall j (proj2 (in_range 100 j) ltac:(lia))).
  apply orb_true_iff in Hall.
  destruct Hall as [Hle | Hs]; [apply Z.leb_le in Hle; lia | exact Hs].
Qed.

(** X6. No two documents of a 200 answer tie: the score of a document is
    below the score of every document ranked before it. *)
Theorem documents_strictly_sorted (clk : Clock) (body : QueryBody) (w w' : World)
        (resp : QueryResponse) :
  post_query clk body w = (OK resp, w') ->
  StronglySorted by_score_strict (documents resp).
Proof.
  intros Hq. destruct (post_query_OK_response clk body w w' resp Hq)
    as (request & Hv & _ & -> & _).
  destruct (validate_QueryRequest_bounds body request Hv) as [_ [_ Hk]].
  simpl. unfold range. apply StronglySorted_map_seq.
  intros i j Hi Hj. unfold by_score_strict. simpl.
  apply sample_scores_strictly_decrease; lia.
Qed.

(** [str_int] can be read back. *)
Lemma int_of_str_str_int (i : Z) : int_of_str (str_int i) = Some i.
Proof.
  unfold int_of_str, str_int.
  assert (Hisi : NilZero.int_of_string (NilZero.string_of_int (Z.to_int i)) = Some (Z.to_int i)).
  { destruct i as [| p | p]; simpl Z.to_int.
    - reflexivity.
    - apply NilZero.isi; intros [= H]; now apply (Unsigned.to_uint_nonnil p).
    - apply NilZero.isi; intros [= H]; now apply (Unsigned.to_uint_nonnil p). }
  rewrite Hisi. simpl. now rewrite DecimalZ.of_to.
Qed.

Lemma index_of_sample_doc_id (i : Z) :
  index_of_doc_id (doc_id (sample_document_at i)) = Some i.
Proof. simpl. apply int_of_str_str_int. Qed.


Lemma NoDup_map_injective {A B : Type} (f : A -> B) (l : list A) :
  (forall a b, f a = f b -> a = b) -> NoDup l -> NoDup (map f l).
Proof.
  intros Hf Hl. induction Hl as [| a l Ha Hl IH]; simpl; constructor.
  - intros Hin. apply in_map_iff in Hin. destruct Hin as [b [Hb Hin]].
    apply Hf in Hb. now subst b.
  - exact IH.
Qed.

Lemma NoDup_range (k : Z) : NoDup (range k).
Proof.
  unfold range. apply NoDup_map_injective; [| apply seq_NoDup].
  intros a b H. lia.
Qed.

(** X8. The identifiers of the documents of a 200 answer are pairwise
    distinct. *)
Theorem doc_ids_distinct (clk : Clock) (body : QueryBody) (w w' : World)
        (resp : QueryResponse) :
  post_query clk body w = (OK resp, w') ->
  NoDup (map doc_id (documents resp)).
Proof.
  intros Hq. destruct (post_query_OK_response clk body w w' resp Hq)
    as (request & _ & _ & -> & _).
  simpl. rewrite map_map.
  apply NoDup_map_injective; [| apply NoDup_range].
  intros i j H.
  assert (Hi := index_of_sample_doc_id i). assert (Hj := index_of_sample_doc_id j).
  rewrite H in Hi. congruence.
Qed.

Lemma sample_score_signs (i : Z) :
  0 <= i < 100 ->
  (i < 9 -> Float64.ltb Float64.f0 (sample_score i) = true) /\
  (i = 9 -> sample_score i = Float64.f0) /\
  (9 < i -> Float64.ltb (sample_score i) Float64.f0 = true).
Proof.
  intros Hi.
  assert (Hall : forallb (fun i =>
            if i <? 9 then Float64.ltb Float64.f0 (sample_score i)
            else if i =? 9 then match sample_score i with S754_zero false => true | _ => false end
            else Float64.ltb (sample_score i) Float64.f0) (range 100) = true)
    by (vm_compute; reflexivity).
  rewrite forallb_forall in Hall. specialize (Hall i (proj2 (in_range 100 i) Hi)).
  destruct (Z.ltb_spec i 9); [repeat split; intros; try lia; assumption |].
  destruct (Z.eqb_spec i 9).
  - repeat split; intros; try lia.
    destruct (sample_score i) as [[] | | |]; try discriminate. reflexivity.
  - repeat split; intros; try lia; assumption.
Qed.

(** X9. In a 200 answer the documents of rank 1 to 9 have a positive
    score, the document of rank 10 has score 0.0, and every document of
    rank 11 or more has a negative score. *)
Theorem score_sign_by_rank (clk : Clock) (body : QueryBody) (w w' : World)
        (resp : QueryResponse) (d : Document) :
  post_query clk body w = (OK resp, w') ->
  In d (documents resp) ->
  (rank d <= 9 -> Float64.ltb Float64.f0 (score d) = true) /\
  (rank d = 10 -> score d = Float64.f0) /\
  (11 <= rank d -> Float64.ltb (score d) Float64.f0 = true).
Proof.
  intros Hq Hd. destruct (post_query_OK_response clk body w w' resp Hq)
    as (request & Hv & _ & -> & _).
  destruct (validate_QueryRequest_bounds body request Hv) as [_ [_ Hk]].
  simpl in Hd. apply in_map_iff in Hd. destruct Hd as [i [<- Hi]].
  apply in_range in Hi. simpl.
  destruct (sample_score_signs i ltac:(lia)) as (Hpos & Hzero & Hneg).
  repeat split; intros; [apply Hpos | apply Hzero | apply Hneg]; lia.
Qed.

(** ** The life of the process *)

Lemma serve_cons (clk : Clock) (rq : ApiRequest) (rqs : list ApiRequest) (w : World) :
  serve clk (rq :: rqs) w = serve clk rqs (handle clk rq w).
Proof. reflexivity. Qed.

Lemma serve_total_queries (clk : Clock) (rqs : list ApiRequest) (w : World) :
  total_queries (stats (serve clk rqs w)) = total_queries (stats w) + count_served rqs.
Proof.
  revert w. induction rqs as [| rq rqs IH]; intros w.
  - unfold count_served. simpl. lia.
  - rewrite serve_cons, IH. unfold count_served. simpl filter.
    destruct (served rq) eqn:Hs.
    + rewrite (handle_served clk rq w Hs). simpl. lia.
    + rewrite (handle_not_served clk rq w Hs). lia.
Qed.

Lemma serve_start_time (clk : Clock) (rqs : list ApiRequest) (w : World) :
  start_time (stats (serve clk rqs w)) = start_time (stats w).
Proof.
  revert w. induction rqs as [| rq rqs IH]; intros w; [reflexivity |].
  rewrite serve_cons, IH.
  destruct (served rq) eqn:Hs.
  - now rewrite (handle_served clk rq w Hs).
  - now rewrite (handle_not_served clk rq w Hs).
Qed.

(** X10. At any point of the life of the process [total_queries] is the
    number of served queries so far, the POST /query requests whose body
    fits the fields and whose method is one of the three: requests
    refused with 422 or 500, GET / and GET /health are not counted. *)
Theorem total_queries_counts_served (clk : Clock) (rqs : list ApiRequest) :
  total_queries (stats (serve clk rqs (init_world clk))) = count_served rqs.
Proof. rewrite serve_total_queries. simpl. lia. Qed.

(** X11. [start_time] is written once, when the module is loaded: after
    any sequence of requests it still holds the first reading of the
    clock. *)
Theorem start_time_never_changes (clk : Clock) (rqs : list ApiRequest) :
  start_time (stats (serve clk rqs (init_world clk))) = time_at clk 0.
Proof. rewrite serve_start_time. reflexivity. Qed.

(** ** binary64: the exponent of a rounded number, the order as an order
    of integers, the sign of a quotient *)

Module Float64Order.

Import Float64 Float64Facts.

Lemma Zdigits2_below (m k : Z) : 0 < m -> m < 2 ^ k -> Zdigits2 m <= k.
Proof.
  intros Hm Hk. destruct (Zdigits2_bounds m Hm) as [H1 [Hlo _]].
  destruct (Z_lt_le_dec k (Zdigits2 m)) as [Hlt |]; [| assumption].
  assert (2 ^ k <= 2 ^ (Zdigits2 m - 1)) by (apply Z.pow_le_mono_r; lia). lia.
Qed.

Lemma round_nearest_even_le (m : Z) (l : location) : round_nearest_even m l <= m + 1.
Proof. destruct l as [| []]; simpl; try destruct (Z.even m); lia. Qed.

(** Rounding raises the canonical exponent of its input by one at most. *)
Lemma binary_round_aux_exponent (s : bool) (mz : positive) (ez : Z) (l : location) :
  ez <= fexp prec emax (Zdigits2 (Zpos mz) + ez) ->
  -1074 < Zdigits2 (Zpos mz) + ez ->
  exists (m2 : positive) (e2 : Z),
    binary_round_aux prec emax s (Zpos mz) ez l
    = (if e2 <=? emax - prec then S754_finite s m2 e2 else S754_infinity s) /\
    fexp prec emax (Zdigits2 (Zpos mz) + ez) <= e2
    <= fexp prec emax (Zdigits2 (Zpos mz) + ez + 1).
Proof.
  intros HE Hmin. unfold binary_round_aux.
  destruct (shr_fexp_spec (Zpos mz) ez l ltac:(lia)) as [Hm' He'].
  destruct (shr_fexp prec emax (Zpos mz) ez l) as [mrs' e']. simpl fst in Hm'. simpl snd in He'.
  set (D := Zdigits2 (Zpos mz) + ez) in *.
  assert (HED : fexp prec emax D = Z.max (D - 53) (-1074)) by apply fexp_binary64.
  assert (HED1 : fexp prec emax (D + 1) = Z.max (D + 1 - 53) (-1074)) by apply fexp_binary64.
  set (E := fexp prec emax D) in *.
  rewrite Z.max_r in Hm', He' by lia.
  replace (ez + (E - ez)) with E in He' by lia. subst e'.
  destruct (Zdigits2_shiftr (Zpos mz) (E - ez) ltac:(lia) ltac:(unfold D in *; lia))
    as [Hm'1 Hd'].
  rewrite <- Hm' in Hm'1, Hd'.
  set (m1 := round_nearest_even (shr_m mrs') (loc_of_shr_record mrs')).
  assert (Hm1 : shr_m mrs' <= m1) by apply round_nearest_even_ge.
  assert (Hm1' : m1 <= shr_m mrs' + 1) by apply round_nearest_even_le.
  destruct (shr_fexp_spec m1 E loc_Exact ltac:(lia)) as [Hm2 He2].
  destruct (shr_fexp prec emax m1 E loc_Exact) as [mrs'' e'']. simpl fst in Hm2. simpl snd in He2.
  assert (Hd1 : Zdigits2 (shr_m mrs') <= Zdigits2 m1) by (apply Zdigits2_mono; lia).
  assert (Hd1u : Zdigits2 m1 <= Zdigits2 (shr_m mrs') + 1).
  { apply Zdigits2_below; [lia |].
    destruct (Zdigits2_bounds (shr_m mrs') ltac:(lia)) as [Hd0 [_ Hhi]].
    rewrite Z.pow_add_r by lia. simpl (2 ^ 1). lia. }
  assert (HE2 : fexp prec emax (Zdigits2 m1 + E) = Z.max (Zdigits2 m1 + E - 53) (-1074))
    by apply fexp_binary64.
  set (E2 := fexp prec emax (Zdigits2 m1 + E)) in *.
  destruct (Zdigits2_bounds m1 ltac:(lia)) as [Hd1' _].
  assert (HEE2 : E <= E2) by (unfold D in *; lia).
  rewrite Z.max_r in Hm2, He2 by lia.
  replace (E + (E2 - E)) with E2 in He2 by lia. subst e''.
  destruct (Zdigits2_shiftr m1 (E2 - E) ltac:(lia) ltac:(lia)) as [Hm2' _].
  rewrite <- Hm2 in Hm2'.
  destruct (shr_m mrs'') as [| m2 | m2] eqn:Hm2z; try lia.
  exists m2, E2. split; [reflexivity |]. unfold D in *. lia.
Qed.

Lemma binary_round_exponent (s : bool) (m : positive) (e : Z) :
  -1074 <= e ->
  exists (m2 : positive) (e2 : Z),
    binary_round prec emax s m e
    = (if e2 <=? emax - prec then S754_finite s m2 e2 else S754_infinity s) /\
    fexp prec emax (Zdigits2 (Zpos m) + e) <= e2
    <= fexp prec emax (Zdigits2 (Zpos m) + e + 1).
Proof.
  intros He. unfold binary_round.
  pose proof (shl_align_spec m e (fexp prec emax (Zpos (digits2_pos m) + e))) as Hs.
  destruct (shl_align m e (fexp prec emax (Zpos (digits2_pos m) + e))) as [mz ez].
  destruct Hs as [Hez Hmz].
  change (Zpos (digits2_pos m)) with (Zdigits2 (Zpos m)) in *.
  destruct (Zdigits2_bounds (Zpos m) ltac:(lia)) as [Hd _].
  assert (HE : fexp prec emax (Zdigits2 (Zpos m) + e) = Z.max (Zdigits2 (Zpos m) + e - 53) (-1074))
    by apply fexp_binary64.
  assert (HD : Zdigits2 (Zpos mz) + ez = Zdigits2 (Zpos m) + e).
  { rewrite Hmz, Zdigits2_shiftl by lia. lia. }
  destruct (binary_round_aux_exponent s mz ez loc_Exact) as (m2 & e2 & Hr & Hb).
  { rewrite HD. lia. }
  { rewrite HD. lia. }
  rewrite HD in Hb. exists m2, e2. split; assumption.
Qed.

(** An integer below 2^1023 has a finite double. *)
Lemma of_Z_finite (n : Z) : 0 <= n < 2 ^ 1023 -> is_infinity (of_Z n) = false.
Proof.
  intros [Hn Hhi]. destruct n as [| p | p]; try lia; [reflexivity |].
  unfold of_Z, binary_normalize.
  destruct (binary_round_exponent false p 0 ltac:(lia)) as (m2 & e2 & -> & _ & Hb).
  pose proof (Zdigits2_below (Zpos p) 1023 ltac:(lia) Hhi) as Hd.
  rewrite fexp_binary64 in Hb.
  destruct (Z.leb_spec e2 (emax - prec)) as [| Hgt]; [reflexivity |].
  unfold emax, prec in Hgt. lia.
Qed.

(** An integer from 2^1024 on rounds to infinity. *)
Lemma of_Z_infinite (n : Z) : 2 ^ 1024 <= n -> of_Z n = S754_infinity false.
Proof.
  intros Hn.
  assert (Hpos : 0 < n) by (pose proof (Z.pow_pos_nonneg 2 1024); lia).
  destruct n as [| p | p]; try lia.
  unfold of_Z, binary_normalize.
  destruct (binary_round_exponent false p 0 ltac:(lia)) as (m2 & e2 & -> & Hb & _).
  pose proof (Zdigits2_above (Zpos p) 1024 ltac:(lia) Hn) as Hd.
  rewrite fexp_binary64 in Hb.
  destruct (Z.leb_spec e2 (emax - prec)) as [Hle |]; [| reflexivity].
  unfold emax, prec in Hle. lia.
Qed.

(** *** The order *)

(** On finite doubles [SFcompare] is the comparison of the integers
    [scaled]. *)
Lemma compare_scaled (x y : float) :
  is_finite x = true -> is_finite y = true ->
  valid x = true -> valid y = true ->
  SFcompare x y = Some (scaled x ?= scaled y).
Proof.
  intros Hfx Hfy Hvx Hvy.
  destruct x as [sx | sx | | sx mx ex]; try discriminate Hfx;
    destruct y as [sy | sy | | sy my ey]; try discriminate Hfy.
  - reflexivity.
  - unfold valid, valid_binary, bounded in Hvy. apply andb_true_iff in Hvy.
    destruct Hvy as [Hcy _]. destruct (canonical_exponent my ey Hcy) as [Hey _].
    pose proof (Z.pow_pos_nonneg 2 (ey + 1074) ltac:(lia) ltac:(lia)) as Hp.
    pose proof (Z.mul_pos_pos _ _ (Pos2Z.is_pos my) Hp) as Hq.
    simpl SFcompare. unfold scaled, cond_Zopp. f_equal.
    destruct sy; symmetry; [apply Z.compare_gt_iff | apply Z.compare_lt_iff]; lia.
  - unfold valid, valid_binary, bounded in Hvx. apply andb_true_iff in Hvx.
    destruct Hvx as [Hcx _]. destruct (canonical_exponent mx ex Hcx) as [Hex _].
    pose proof (Z.pow_pos_nonneg 2 (ex + 1074) ltac:(lia) ltac:(lia)) as Hp.
    pose proof (Z.mul_pos_pos _ _ (Pos2Z.is_pos mx) Hp) as Hq.
    simpl SFcompare. unfold scaled, cond_Zopp. f_equal.
    destruct sx; symmetry; [apply Z.compare_lt_iff | apply Z.compare_gt_iff]; lia.
  - unfold valid, valid_binary, bounded in Hvx, Hvy.
    apply andb_true_iff in Hvx, Hvy. destruct Hvx as [Hcx _], Hvy as [Hcy _].
    destruct (canonical_exponent mx ex Hcx) as [Hex _].
    destruct (canonical_exponent my ey Hcy) as [Hey _].
    pose proof (Z.pow_pos_nonneg 2 (ex + 1074) ltac:(lia) ltac:(lia)) as Hpx.
    pose proof (Z.pow_pos_nonneg 2 (ey + 1074) ltac:(lia) ltac:(lia)) as Hpy.
    pose proof (Z.mul_pos_pos _ _ (Pos2Z.is_pos mx) Hpx) as Hqx.
    pose proof (Z.mul_pos_pos _ _ (Pos2Z.is_pos my) Hpy) as Hqy.
    assert (Hlt : forall m m' e e', canonical_mantissa prec emax m e = true ->
                  canonical_mantissa prec emax m' e' = true -> -1074 <= e -> e < e' ->
                  Zpos m * 2 ^ (e + 1074) < Zpos m' * 2 ^ (e' + 1074)).
    { intros m m' e e' Hc Hc' He Hee'.
      pose proof (canonical_exponent_lt m m' e e' (-1074) Hc Hc' Hee' He) as H.
      replace (e - -1074) with (e + 1074) in H by lia.
      replace (e' - -1074) with (e' + 1074) in H by lia. exact H. }
    assert (Heq : forall m m' e, 0 < 2 ^ (e + 1074) ->
                  (Zpos m * 2 ^ (e + 1074) ?= Zpos m' * 2 ^ (e + 1074)) = (m ?= m')%positive).
    { intros m m' e Hp. rewrite <- Zmult_compare_compat_r by lia. reflexivity. }
    unfold SFcompare, scaled, cond_Zopp. f_equal.
    destruct sx, sy.
    + (* both negative *)
      rewrite Z.compare_opp.
      destruct (Z.compare_spec ex ey) as [-> | Hl | Hg].
      * rewrite Pos.compare_cont_spec. simpl Pos.switch_Eq.
        rewrite (Heq my mx ey Hpy), (Pos.compare_antisym mx my).
        destruct (mx ?= my)%positive; reflexivity.
      * symmetry. apply Z.compare_gt_iff. apply Hlt; assumption.
      * symmetry. apply Z.compare_lt_iff. apply Hlt; assumption.
    + symmetry. apply Z.compare_lt_iff. lia.
    + symmetry. apply Z.compare_gt_iff. lia.
    + (* both positive *)
      destruct (Z.compare_spec ex ey) as [-> | Hl | Hg].
      * rewrite Pos.compare_cont_spec. simpl Pos.switch_Eq.
        rewrite (Heq mx my ey Hpy). destruct (mx ?= my)%positive; reflexivity.
      * symmetry. apply Z.compare_lt_iff. apply Hlt; assumption.
      * symmetry. apply Z.compare_gt_iff. apply Hlt; assumption.
Qed.

Lemma leb_scaled (x y : float) :
  is_finite x = true -> is_finite y = true ->
  valid x = true -> valid y = true ->
  leb x y = true <-> scaled x <= scaled y.
Proof.
  intros Hfx Hfy Hvx Hvy. unfold leb, SFleb.
  rewrite (compare_scaled x y Hfx Hfy Hvx Hvy).
  destruct (Z.compare_spec (scaled x) (scaled y)); split; intros; try lia;
    try reflexivity; discriminate.
Qed.

(** [<=] on finite doubles is transitive. *)
Lemma leb_trans (x y z : float) :
  is_finite x = true -> is_finite y = true -> is_finite z = true ->
  valid x = true -> valid y = true -> valid z = true ->
  leb x y = true -> leb y z = true -> leb x z = true.
Proof.
  intros Hfx Hfy Hfz Hvx Hvy Hvz Hxy Hyz.
  apply (leb_scaled x y) in Hxy; try assumption.
  apply (leb_scaled y z) in Hyz; try assumption.
  apply (leb_scaled x z); try assumption. lia.
Qed.

(** *** The sign of a rounded number and of a quotient *)

(** Rounding a mantissa that is not negative gives a zero, a finite number
    or an infinity of the sign asked for, never a NaN. *)
Lemma binary_round_aux_sign (s : bool) (m e : Z) (l : location) :
  0 <= m ->
  match binary_round_aux prec emax s m e l with
  | S754_zero s' | S754_infinity s' | S754_finite s' _ _ => s' = s
  | S754_nan => False
  end.
Proof.
  intros Hm. unfold binary_round_aux.
  destruct (shr_fexp_spec m e l Hm) as [Hm' _].
  destruct (shr_fexp prec emax m e l) as [mrs' e']. simpl fst in Hm'.
  assert (H1 : 0 <= shr_m mrs').
  { rewrite Hm'. apply Z.div_pos; [assumption | apply Z.pow_pos_nonneg; lia]. }
  pose proof (round_nearest_even_ge (shr_m mrs') (loc_of_shr_record mrs')) as Hge.
  set (m1 := round_nearest_even (shr_m mrs') (loc_of_shr_record mrs')) in *.
  destruct (shr_fexp_spec m1 e' loc_Exact ltac:(lia)) as [Hm2 _].
  destruct (shr_fexp prec emax m1 e' loc_Exact) as [mrs'' e'']. simpl fst in Hm2.
  assert (H2 : 0 <= shr_m mrs'').
  { rewrite Hm2. apply Z.div_pos; [lia | apply Z.pow_pos_nonneg; lia]. }
  destruct (shr_m mrs'') as [| m2 | m2]; try lia; [reflexivity |].
  destruct (e'' <=? emax - prec); reflexivity.
Qed.

(** The quotient of a number that is not negative by a positive finite
    one is not negative. *)
Lemma div_nonneg (x : float) (m : positive) (e : Z) :
  nonneg x = true -> nonneg (div x (S754_finite false m e)) = true.
Proof.
  intros Hx. destruct x as [sx | sx | | sx mx ex]; try discriminate Hx.
  - destruct sx; reflexivity.
  - destruct sx; [discriminate Hx | reflexivity].
  - destruct sx; [discriminate Hx |]. unfold div, SFdiv, SFdiv_core_binary.
    set (e' := Z.min _ _). set (sh := ex - e - e').
    set (m' := match sh with Zpos _ => Z.shiftl (Zpos mx) sh | 0 => Zpos mx | Zneg _ => 0 end).
    assert (Hm' : 0 <= m').
    { unfold m'. destruct sh; try lia. apply Z.shiftl_nonneg. lia. }
    assert (Hq : 0 <= fst (Z.div_eucl m' (Zpos m))).
    { change (fst (Z.div_eucl m' (Zpos m))) with (m' / Zpos m).
      apply Z.div_pos; lia. }
    destruct (Z.div_eucl m' (Zpos m)) as [q r]. simpl fst in Hq. simpl xorb.
    pose proof (binary_round_aux_sign false q e' (new_location (Zpos m) r) Hq) as Hs.
    destruct (binary_round_aux prec emax false q e' (new_location (Zpos m) r));
      try contradiction; now subst.
Qed.

End Float64Order.

(** ** The defaults of the body *)

(** X12. A body that gives a query of 1 to 500 characters and nothing
    else is answered 200, with method "hybrid" and ten documents. *)
Theorem defaults_applied (clk : Clock) (q : string) (w : World) :
  1 <= len q <= 500 ->
  exists resp w',
    post_query clk (mkQueryBody (Some q) None None) w = (OK resp, w') /\
    resp_query resp = q /\
    resp_method resp = "hybrid"%string /\
    List.length (documents resp) = 10%nat.
Proof.
  intros Hq.
  assert (Hv : validate_QueryRequest (mkQueryBody (Some q) None None)
               = Some (mkQueryRequest q 10 "hybrid")).
  { unfold validate_QueryRequest. simpl.
    destruct (Z.leb_spec 1 (len q)); [| lia].
    destruct (Z.leb_spec (len q) 500); [| lia]. reflexivity. }
  rewrite (post_query_success clk _ _ w Hv eq_refl).
  eexists. eexists. repeat split.
Qed.

Lemma defaults_applied_what_is_rag :
  1 <= len "what is rag?" <= 500 /\
  exists resp w',
    post_query example_clock (mkQueryBody (Some "what is rag?"%string) None None)
               (init_world example_clock) = (OK resp, w') /\
    resp_query resp = "what is rag?"%string /\
    resp_method resp = "hybrid"%string /\
    List.length (documents resp) = 10%nat.
Proof.
  split; [vm_compute; split; discriminate |].
  apply (defaults_applied example_clock "what is rag?" (init_world example_clock)).
  vm_compute; split; discriminate.
Defined.

(** ** Requests that are not recorded *)

(** X13. A sequence of requests none of which is a served query leaves
    [stats] exactly as it was, however long it is. *)
Theorem unserved_requests_leave_stats (clk : Clock) (rqs : list ApiRequest) (w : World) :
  forallb (fun rq => negb (served rq)) rqs = true ->
  stats (serve clk rqs w) = stats w.
Proof.
  revert w. induction rqs as [| rq rqs IH]; intros w Hall; [reflexivity |].
  simpl in Hall. apply andb_true_iff in Hall. destruct Hall as [Hrq Hall].
  rewrite serve_cons, (IH _ Hall).
  apply handle_not_served. now apply negb_true_iff.
Qed.

Lemma unserved_requests_leave_stats_four :
  forallb (fun rq => negb (served rq))
          [GET_health; POST_query body_fuzzy; GET_root; POST_query body_empty_query] = true /\
  stats (serve example_clock
               [GET_health; POST_query body_fuzzy; GET_root; POST_query body_empty_query]
               (world_after_query example_clock (init_world example_clock)))
  = stats (world_after_query example_clock (init_world example_clock)).
Proof.
  split; [reflexivity |].
  apply (unserved_requests_leave_stats example_clock). reflexivity.
Defined.

(** ** GET /health over the range of the count *)

Lemma float_of_int_returns (n : Z) :
  0 <= n < 2 ^ 1023 -> float_of_int n = Returned (Float64.of_Z n).
Proof. intros H. apply float_of_int_finite. now apply Float64Order.of_Z_finite. Qed.

Lemma float_of_int_overflows (n : Z) :
  2 ^ 1024 <= n ->
  float_of_int n = Raised (OverflowError "int too large to convert to float").
Proof. intros H. unfold float_of_int. now rewrite (Float64Order.of_Z_infinite n H). Qed.

(** X14. GET /health is answered 200 in every state whose count is below
    2^1023; it reports "healthy", the count, and as uptime the reading of
    the clock minus [start_time]. *)
Theorem health_answered_200 (clk : Clock) (w : World) :
  total_queries (stats w) < 2 ^ 1023 ->
  exists r w',
    get_health clk w = (OK r, w') /\
    status r = "healthy"%string /\
    health_total_queries r = total_queries (stats w) /\
    uptime_seconds r = Float64.sub (time_at clk (time_calls w)) (start_time (stats w)).
Proof.
  intros Hlt. unfold get_health.
  destruct (Z_lt_le_dec 0 (total_queries (stats w))) as [Hpos | Hle].
  - assert (Hr : 0 <= total_queries (stats w) < 2 ^ 1023) by (split; [lia | assumption]).
    rewrite (health_check_busy clk w _ Hpos (float_of_int_returns _ Hr)).
    simpl. eauto 6.
  - rewrite (health_check_idle clk w Hle). simpl. eauto 6.
Qed.

Lemma health_answered_200_4_queries :
  total_queries (stats world_4_queries) < 2 ^ 1023 /\
  exists r w',
    get_health example_clock world_4_queries = (OK r, w') /\
    status r = "healthy"%string /\
    health_total_queries r = total_queries (stats world_4_queries) /\
    uptime_seconds r
    = Float64.sub (time_at example_clock (time_calls world_4_queries))
                  (start_time (stats world_4_queries)).
Proof.
  split; [reflexivity |].
  apply (health_answered_200 example_clock world_4_queries). reflexivity.
Defined.

(** X15. With a count of 2^1024 or more the conversion of line 82 raises
    [OverflowError]: GET /health is answered 500 and [stats] is as it
    was. *)
Theorem health_overflow_answered_500 (clk : Clock) (w : World) :
  2 ^ 1024 <= total_queries (stats w) ->
  get_health clk w
  = (Error 500 "Internal Server Error", mkWorld (stats w) (S (time_calls w)) (now_calls w)).
Proof.
  intros Hge. unfold get_health.
  assert (Hpos : 0 < total_queries (stats w))
    by (pose proof (Z.pow_pos_nonneg 2 1024); lia).
  now rewrite (health_check_overflow clk w _ Hpos (float_of_int_overflows _ Hge)).
Qed.

Lemma health_overflow_answered_500_at_2_1024 :
  2 ^ 1024 <= total_queries (stats (mkWorld (mkStats (2 ^ 1024) Float64.f0 Float64.f0) 1 0)) /\
  get_health example_clock (mkWorld (mkStats (2 ^ 1024) Float64.f0 Float64.f0) 1 0)
  = (Error 500 "Internal Server Error",
     mkWorld (mkStats (2 ^ 1024) Float64.f0 Float64.f0) 2 0).
Proof.
  split; [simpl; lia |].
  apply (health_overflow_answered_500 example_clock
           (mkWorld (mkStats (2 ^ 1024) Float64.f0 Float64.f0) 1 0)).
  simpl. lia.
Defined.

(** ** GET /health with a steady clock *)

Lemma steady_not_nan (clk : Clock) (n : nat) : steady clk -> time_at clk n <> S754_nan.
Proof. intros Hclk H. destruct (Hclk n) as (Hf & _). rewrite H in Hf. discriminate. Qed.

(** With a steady clock no reading is below the first one. *)
Lemma steady_from_start (clk : Clock) (n : nat) :
  steady clk -> Float64.leb (time_at clk 0) (time_at clk n) = true.
Proof.
  intros Hclk. induction n as [| n IH].
  - apply Float64Facts.leb_refl. now apply steady_not_nan.
  - destruct (Hclk 0%nat) as (Hf0 & Hv0 & _).
    destruct (Hclk n) as (Hfn & Hvn & Hle).
    destruct (Hclk (S n)) as (Hfs & Hvs & _).
    exact (Float64Order.leb_trans _ _ _ Hf0 Hfn Hfs Hv0 Hvn Hvs IH Hle).
Qed.

(** What a 200 answer of GET /health was computed from. *)
Lemma get_health_OK_inv (clk : Clock) (w w' : World) (r : HealthResponse) :
  get_health clk w = (OK r, w') ->
  uptime_seconds r = Float64.sub (time_at clk (time_calls w)) (start_time (stats w)) /\
  (avg_latency_ms r = Float64.f0 \/
   exists m e, avg_latency_ms r
               = Float64.div (total_latency_ms (stats w)) (S754_finite false m e)).
Proof.
  unfold get_health. intros H.
  destruct (Z_lt_le_dec 0 (total_queries (stats w))) as [Hpos | Hle].
  - destruct (float_of_int (total_queries (stats w))) as [c | e] eqn:Hc.
    + rewrite (health_check_busy clk w c Hpos Hc) in H. simpl in H.
      injection H as <- _. simpl. split; [reflexivity | right].
      unfold float_of_int in Hc.
      destruct (Float64Facts.of_Z_pos _ Hpos) as (m2 & e2 & Hof). rewrite Hof in Hc.
      destruct (e2 <=? Float64.emax - Float64.prec); [| discriminate].
      injection Hc as <-. eauto.
    + rewrite (health_check_overflow clk w e Hpos Hc) in H. simpl in H.
      destruct e; discriminate.
  - rewrite (health_check_idle clk w Hle) in H. simpl in H.
    injection H as <- _. simpl. auto.
Qed.

(** X16. With a steady clock, whatever requests were served since the
    start, the uptime and the average latency that GET /health reports
    are not negative. *)
Theorem health_report_not_negative (clk : Clock) (rqs : list ApiRequest)
        (r : HealthResponse) (w' : World) :
  steady clk ->
  get_health clk (serve clk rqs (init_world clk)) = (OK r, w') ->
  Float64.nonneg (uptime_seconds r) = true /\
  Float64.nonneg (avg_latency_ms r) = true.
Proof.
  intros Hclk Hh. set (w := serve clk rqs (init_world clk)) in *.
  destruct (get_health_OK_inv clk w w' r Hh) as [Hup Havg].
  assert (Hw : sound_total w) by (apply serve_sound; [assumption | apply init_world_sound]).
  split.
  - rewrite Hup. unfold w. rewrite serve_start_time. simpl start_time.
    destruct (Hclk 0%nat) as (Hf0 & Hv0 & _).
    destruct (Hclk (time_calls (serve clk rqs (init_world clk)))) as (Hfn & Hvn & _).
    apply (Float64Facts.sub_nonneg _ _ Hf0 Hfn Hv0 Hvn). now apply steady_from_start.
  - destruct Havg as [-> | (m & e & ->)]; [reflexivity |].
    apply Float64Order.div_nonneg. apply Hw.
Qed.

Lemma health_report_not_negative_eight_ticks :
  steady eight_ticks_clock /\
  get_health eight_ticks_clock
    (serve eight_ticks_clock [POST_query body_hybrid; POST_query body_hybrid]
           (init_world eight_ticks_clock))
  = (OK (mkHealthResponse "healthy" (S754_finite false 5629499534213120 (-50)) 2
                          (S754_finite false 8796093022208000 (-43))),
     mkWorld (mkStats 2 (S754_finite false 8796093022208000 (-42)) (Float64.of_Z 1700000000))
             6 2) /\
  Float64.nonneg (S754_finite false 5629499534213120 (-50)) = true /\
  Float64.nonneg (S754_finite false 8796093022208000 (-43)) = true.
Proof.
  split; [exact eight_ticks_clock_steady |]. split; [reflexivity |].
  apply (health_report_not_negative eight_ticks_clock
           [POST_query body_hybrid; POST_query body_hybrid]
           (mkHealthResponse "healthy" (S754_finite false 5629499534213120 (-50)) 2
                             (S754_finite false 8796093022208000 (-43)))
           (mkWorld (mkStats 2 (S754_finite false 8796093022208000 (-42))
                             (Float64.of_Z 1700000000)) 6 2)
           eight_ticks_clock_steady).
  reflexivity.
Defined.

(** ** The further properties on examples *)

(** The answers the examples below are about. *)
Lemma post_query_hybrid_3 :
  post_query example_clock body_hybrid (init_world example_clock)
  = (OK (served_response example_clock request_hybrid_3 (init_world example_clock)),
     world_after_query example_clock (init_world example_clock)).
Proof. reflexivity. Qed.

Lemma post_query_dense_3 :
  post_query later_clock body_dense_3 (init_world later_clock)
  = (OK (served_response later_clock request_dense_3 (init_world later_clock)),
     world_after_query later_clock (init_world later_clock)).
Proof. reflexivity. Qed.

Lemma post_query_defaults :
  post_query later_clock body_defaults (init_world later_clock)
  = (OK (served_response later_clock request_defaults (init_world later_clock)),
     world_after_query later_clock (init_world later_clock)).
Proof. reflexivity. Qed.

Lemma served_response_echoes_hybrid :
  post_query example_clock body_hybrid (init_world example_clock)
  = (OK (served_response example_clock request_hybrid_3 (init_world example_clock)),
     world_after_query example_clock (init_world example_clock)) /\
  body_query body_hybrid = Some "what is rag?"%string /\
  resp_method (served_response example_clock request_hybrid_3 (init_world example_clock))
  = "hybrid"%string /\
  answer (served_response example_clock request_hybrid_3 (init_world example_clock))
  = "Sample answer for: what is rag?"%string.
Proof.
  split; [exact post_query_hybrid_3 |].
  exact (served_response_echoes example_clock body_hybrid _ _ _ post_query_hybrid_3).
Defined.

Lemma reported_latency_is_recorded_hybrid :
  post_query example_clock body_hybrid (init_world example_clock)
  = (OK (served_response example_clock request_hybrid_3 (init_world example_clock)),
     world_after_query example_clock (init_world example_clock)) /\
  stats (world_after_query example_clock (init_world example_clock))
  = mkStats 1 (Float64.add Float64.f0 Float64.f1000) (Float64.of_Z 1700000000).
Proof.
  split; [exact post_query_hybrid_3 |].
  exact (reported_latency_is_recorded example_clock body_hybrid _ _ _ post_query_hybrid_3).
Defined.

Lemma documents_depend_on_top_k_only_3 :
  or_default (body_top_k body_hybrid) 10 = or_default (body_top_k body_dense_3) 10 /\
  documents (served_response example_clock request_hybrid_3 (init_world example_clock))
  = documents (served_response later_clock request_dense_3 (init_world later_clock)).
Proof.
  split; [reflexivity |].
  exact (documents_depend_on_top_k_only example_clock later_clock body_hybrid body_dense_3
           _ _ _ _ _ _ post_query_hybrid_3 post_query_dense_3 eq_refl).
Defined.

Lemma documents_prefix_3_of_10 :
  or_default (body_top_k body_hybrid) 10 <= or_default (body_top_k body_defaults) 10 /\
  documents (served_response example_clock request_hybrid_3 (init_world example_clock))
  = firstn 3 (documents (served_response later_clock request_defaults (init_world later_clock))).
Proof.
  split; [simpl; lia |].
  apply (documents_prefix example_clock later_clock body_hybrid body_defaults
           _ _ _ _ _ _ post_query_hybrid_3 post_query_defaults).
  simpl. lia.
Defined.

Lemma documents_strictly_sorted_hybrid :
  post_query example_clock body_hybrid (init_world example_clock)
  = (OK (served_response example_clock request_hybrid_3 (init_world example_clock)),
     world_after_query example_clock (init_world example_clock)) /\
  StronglySorted by_score_strict documents_hybrid_3.
Proof.
  split; [exact post_query_hybrid_3 |].
  exact (documents_strictly_sorted example_clock body_hybrid _ _ _ post_query_hybrid_3).
Defined.


Lemma doc_ids_distinct_hybrid :
  post_query example_clock body_hybrid (init_world example_clock)
  = (OK (served_response example_clock request_hybrid_3 (init_world example_clock)),
     world_after_query example_clock (init_world example_clock)) /\
  NoDup ["doc0"; "doc1"; "doc2"]%string.
Proof.
  split; [exact post_query_hybrid_3 |].
  exact (doc_ids_distinct example_clock body_hybrid _ _ _ post_query_hybrid_3).
Defined.

Lemma score_sign_by_rank_rank_10 :
  In (sample_document_at 9)
     (documents (served_response later_clock request_defaults (init_world later_clock))) /\
  rank (sample_document_at 9) = 10 /\
  score (sample_document_at 9) = Float64.f0.
Proof.
  split; [do 9 right; left; reflexivity |]. split; [reflexivity |].
  apply (score_sign_by_rank later_clock body_defaults _ _ _ (sample_document_at 9)
           post_query_defaults).
  - do 9 right; left; reflexivity.
  - reflexivity.
Defined.
